(** * Special-offer pricing: batch pricing of a line, cart totals, discount label

    A shallow embedding of the pricing utility
    ([calculateOfferPricing], [calculateCartTotal], [formatDiscount])
    and the properties its specification states about it, followed by
    further properties of the same functions and of the change handler of
    the text editor ([handleChange]).

    Numbers.  A JavaScript number is modelled by [number]: an exact
    rational, or one of the three non-finite values NaN, +Infinity and
    -Infinity.  Arithmetic is exact: the rounding of binary floating point
    and the sign of zero are not represented.  Every operator below follows
    the ECMAScript definition of the operator on these values.  On whole
    numbers up to [MAX_SAFE_INTEGER], [2^53 - 1], the source computes what
    this model computes: sums, differences and products that stay within
    the bound are not rounded, and the rounded quotient of two such numbers
    has the floor of the exact one.  The properties that depend on the
    value of a quotient, a product or a sum are stated within this bound.
    Beyond it the module [Double] prices a line in binary64, with the
    primitive floating-point numbers of the kernel, and a whole number is
    printed as ECMAScript prints it, with the fewest digits that tell a
    double from its neighbours.

    Types.  The parameters have the types the source documents: the
    quantity is a number, the offer type a string that may be omitted.  The
    two properties the source hands to [parseFloat] may hold any primitive
    value; the batch size, which it uses as it is, is a number when
    present.  A string is the sequence of its UTF-8 bytes.

    Objects.  The source reads the properties of its arguments and assigns
    to none of them; its only assignments are to three local totals.  So
    objects are values here, and the totals are a state passed from one
    call of the callback of [map] to the next. *)

From Stdlib Require Import ZArith QArith Qcanon Qround Lia List String Ascii Bool.
From Stdlib Require Import Permutation DecimalString DecimalPos.
From Stdlib Require PrimFloat FloatOps SpecFloat.
Import ListNotations.

Local Open Scope string_scope.
Local Open Scope Z_scope.

(** ** Numbers *)

Inductive number : Type :=
| Fin (q : Qc)
| NaN
| PosInf
| NegInf.

(** One half. *)
Definition half : Qc := Q2Qc (1 # 2).

(** An integer as a rational, and as a number. *)
Definition Zc (z : Z) : Qc := Q2Qc (inject_Z z).
Definition of_Z (z : Z) : number := Fin (Zc z).

Declare Scope num_scope.
Delimit Scope num_scope with num.
Bind Scope num_scope with number.

Module Num.

Definition zero : number := of_Z 0.

Definition Qc_eqb (x y : Qc) : bool := Qeq_bool x y.
Definition Qc_ltb (x y : Qc) : bool :=
  match (x ?= y)%Qc with Lt => true | _ => false end.

(** Sign of a non-zero finite number or of an infinity: [true] is negative. *)
Definition Qc_neg (x : Qc) : bool := Qc_ltb x 0%Qc.

Definition inf (negative : bool) : number := if negative then NegInf else PosInf.

Definition opp (a : number) : number :=
  match a with
  | Fin x => Fin (- x)%Qc
  | NaN => NaN
  | PosInf => NegInf
  | NegInf => PosInf
  end.

(** [a + b] *)
Definition add (a b : number) : number :=
  match a, b with
  | NaN, _ | _, NaN => NaN
  | Fin x, Fin y => Fin (x + y)%Qc
  | PosInf, NegInf | NegInf, PosInf => NaN
  | PosInf, _ | _, PosInf => PosInf
  | NegInf, _ | _, NegInf => NegInf
  end.

(** [a - b] *)
Definition sub (a b : number) : number := add a (opp b).

(** [a * b]: zero times an infinity is NaN. *)
Definition mul (a b : number) : number :=
  match a, b with
  | NaN, _ | _, NaN => NaN
  | Fin x, Fin y => Fin (x * y)%Qc
  | Fin x, PosInf | PosInf, Fin x =>
      if Qc_eqb x 0%Qc then NaN else inf (Qc_neg x)
  | Fin x, NegInf | NegInf, Fin x =>
      if Qc_eqb x 0%Qc then NaN else inf (negb (Qc_neg x))
  | PosInf, PosInf | NegInf, NegInf => PosInf
  | PosInf, NegInf | NegInf, PosInf => NegInf
  end.

(** [a / b]: [0 / 0] and infinity over infinity are NaN, another number
    over zero is an infinity. *)
Definition div (a b : number) : number :=
  match a, b with
  | NaN, _ | _, NaN => NaN
  | Fin x, Fin y =>
      if Qc_eqb y 0%Qc
      then (if Qc_eqb x 0%Qc then NaN else inf (Qc_neg x))
      else Fin (x / y)%Qc
  | Fin _, (PosInf | NegInf) => zero
  | PosInf, Fin y => inf (Qc_neg y)
  | NegInf, Fin y => inf (negb (Qc_neg y))
  | (PosInf | NegInf), (PosInf | NegInf) => NaN
  end.

(** Integer part of a rational, rounding toward zero. *)
Definition Qc_trunc (x : Qc) : Z :=
  if Qc_neg x then Qceiling x else Qfloor x.

(** [a % b]: the remainder has the sign of the dividend,
    [a - b * trunc (a / b)]. *)
Definition rem (a b : number) : number :=
  match a, b with
  | NaN, _ | _, NaN => NaN
  | (PosInf | NegInf), _ => NaN
  | Fin x, (PosInf | NegInf) => Fin x
  | Fin x, Fin y =>
      if Qc_eqb y 0%Qc then NaN
      else Fin (x - y * Zc (Qc_trunc (x / y)))%Qc
  end.

(** [Math.floor] *)
Definition floor (a : number) : number :=
  match a with
  | Fin x => of_Z (Qfloor x)
  | _ => a
  end.

(** [Math.round]: the nearest integer, a tie going up: [floor (x + 1/2)]. *)
Definition round (a : number) : number :=
  match a with
  | Fin x => of_Z (Qfloor (x + half)%Qc)
  | _ => a
  end.

(** [a > b]: false as soon as one side is NaN. *)
Definition gt (a b : number) : bool :=
  match a, b with
  | NaN, _ | _, NaN => false
  | Fin x, Fin y => Qc_ltb y x
  | PosInf, PosInf => false
  | PosInf, _ => true
  | _, PosInf => false
  | NegInf, _ => false
  | Fin _, NegInf => true
  end.

(** [a <= b] *)
Definition le (a b : number) : bool :=
  match a, b with
  | NaN, _ | _, NaN => false
  | Fin x, Fin y => negb (Qc_ltb y x)
  | NegInf, _ => true
  | _, PosInf => true
  | _, _ => false
  end.

(** ToBoolean on a number: [0] and NaN are falsy. *)
Definition truthy (a : number) : bool :=
  match a with
  | Fin x => negb (Qc_eqb x 0%Qc)
  | NaN => false
  | PosInf | NegInf => true
  end.

(** [a || 0] on a number. *)
Definition or_zero (a : number) : number := if truthy a then a else zero.

End Num.

Infix "+" := Num.add : num_scope.
Infix "-" := Num.sub : num_scope.
Infix "*" := Num.mul : num_scope.
Infix "/" := Num.div : num_scope.
Infix "mod" := Num.rem : num_scope.
Infix ">?" := Num.gt : num_scope.
Infix "<=?" := Num.le : num_scope.

(** ** Values of a price field

    [product.price] and [specialOffer.offerPricePerUnit] go through
    [parseFloat], so they may hold any primitive value: a number, a string
    typed into a form, or nothing at all. *)

Inductive value : Type :=
| VUndefined
| VNull
| VBool (b : bool)
| VNum (n : number)
| VStr (s : string).

Module Parse.

Definition code (c : ascii) : Z := Z.of_N (N_of_ascii c).

Definition digit (c : ascii) : option Z :=
  let n := code c in
  if (48 <=? n) && (n <=? 57) then Some (n - 48) else None.

(** The one-byte StrWhiteSpaceChar: TAB, LF, VT, FF, CR, SP. *)
Definition white1 (c : ascii) : bool :=
  let n := code c in
  ((9 <=? n) && (n <=? 13)) || (n =? 32).

(** U+00A0 in UTF-8. *)
Definition white2 (c1 c2 : ascii) : bool :=
  (code c1 =? 194) && (code c2 =? 160).

(** The three-byte ones: U+1680, U+2000..U+200A, U+2028, U+2029, U+202F,
    U+205F, U+3000 and U+FEFF. *)
Definition white3 (c1 c2 c3 : ascii) : bool :=
  let '(a, b, c) := (code c1, code c2, code c3) in
  ((a =? 225) && (b =? 154) && (c =? 128))
  || ((a =? 226) && (b =? 128)
      && (((128 <=? c) && (c <=? 138)) || (c =? 168) || (c =? 169) || (c =? 175)))
  || ((a =? 226) && (b =? 129) && (c =? 159))
  || ((a =? 227) && (b =? 128) && (c =? 128))
  || ((a =? 239) && (b =? 187) && (c =? 191)).

Fixpoint trimStart (s : string) : string :=
  match s with
  | EmptyString => s
  | String c1 s1 =>
      if white1 c1 then trimStart s1
      else match s1 with
           | EmptyString => s
           | String c2 s2 =>
               if white2 c1 c2 then trimStart s2
               else match s2 with
                    | EmptyString => s
                    | String c3 s3 =>
                        if white3 c1 c2 c3 then trimStart s3 else s
                    end
           end
  end.

(** The longest run of decimal digits at the head of [s]: its value, the
    number of digits read and what follows. *)
Fixpoint digits (s : string) (acc : Z) (count : nat) : Z * nat * string :=
  match s with
  | EmptyString => (acc, count, s)
  | String c s' =>
      match digit c with
      | Some d => digits s' (10 * acc + d) (S count)
      | None => (acc, count, s)
      end
  end.

Definition pow10 (e : Z) : Qc :=
  if e <? 0 then (/ Q2Qc (inject_Z (10 ^ (- e))))%Qc
  else Q2Qc (inject_Z (10 ^ e)).

(** ExponentPart: [e] or [E], an optional sign and at least one digit;
    anything else is not part of the literal. *)
Definition exponent (s : string) : Z :=
  match s with
  | String c r =>
      if (code c =? 101) || (code c =? 69) then
        match r with
        | String "+" r' =>
            let '(e, n, _) := digits r' 0 0 in
            if Nat.eqb n 0 then 0 else e
        | String "-" r' =>
            let '(e, n, _) := digits r' 0 0 in
            if Nat.eqb n 0 then 0 else - e
        | _ =>
            let '(e, n, _) := digits r 0 0 in
            if Nat.eqb n 0 then 0 else e
        end
      else 0
  | EmptyString => 0
  end.

(** The longest prefix of [s] that is a StrDecimalLiteral without sign:
    digits, an optional fraction, an optional exponent. *)
Definition decimal (s : string) : option Qc :=
  let '(ip, ni, s1) := digits s 0 0 in
  let '(fp, nf, s2) :=
    match s1 with
    | String "." r => digits r 0 0
    | _ => (0, 0%nat, s1)
    end in
  if Nat.eqb ni 0 && Nat.eqb nf 0 then None
  else
    let mantissa :=
      (Q2Qc (inject_Z (ip * 10 ^ Z.of_nat nf + fp)) * pow10 (- Z.of_nat nf))%Qc in
    Some (mantissa * pow10 (exponent s2))%Qc.

Definition unsigned (s : string) : number :=
  if String.prefix "Infinity" s then PosInf
  else match decimal s with
       | Some q => Fin q
       | None => NaN
       end.

(** [parseFloat] on a string: leading white space is skipped, then the
    longest prefix that is a decimal literal is read; NaN when there is
    none. *)
Definition parseFloat_string (s : string) : number :=
  match trimStart s with
  | String "-" r => Num.opp (unsigned r)
  | String "+" r => unsigned r
  | r => unsigned r
  end.

End Parse.

(** [parseFloat v]: the argument is converted to a string and parsed.  A
    number prints to a string that parses back to the same number;
    [undefined], [null], [true] and [false] print to strings that hold no
    number. *)
Definition parseFloat (v : value) : number :=
  match v with
  | VNum n => n
  | VStr s => Parse.parseFloat_string s
  | VUndefined | VNull | VBool _ => NaN
  end.

(** ** Printing an integer

    Number::toString on the numbers the source prints, which are results
    of [Math.round].  What is written is the number with the fewest
    significant digits that is read back as the same double, the one
    nearest to the number when there are several.  Up to [2^53] a whole
    number is written with its own digits; above, the doubles are more
    than 1 apart and fewer digits are enough.  Below [10^21] the digits
    are written out, from [10^21] on in exponent notation. *)

Module Print.

Definition numeral (z : Z) : string := NilZero.string_of_int (Z.to_int z).

Fixpoint dropZeros (s : string) : string :=
  match s with
  | String "0" s' => dropZeros s'
  | _ => s
  end.

Fixpoint reverse (s acc : string) : string :=
  match s with
  | EmptyString => acc
  | String c s' => reverse s' (String c acc)
  end.

Definition exponential (z : Z) : string :=
  let ds := numeral (Z.abs z) in
  let n := String.length ds in
  let s := reverse (dropZeros (reverse ds "")) "" in
  let sign := if z <? 0 then "-" else "" in
  let e := "e+" ++ numeral (Z.of_nat (n - 1)) in
  match s with
  | String d EmptyString => sign ++ String d e
  | String d rest => sign ++ String d ("." ++ rest ++ e)
  | EmptyString => sign ++ e
  end.

(** The whole number that the double nearest to [z] holds (rounding to
    nearest, ties to even, as the Standard Library specifies binary64). *)
Definition nearest_double (z : Z) : Z :=
  match SpecFloat.binary_normalize FloatOps.prec FloatOps.emax z 0 false with
  | SpecFloat.S754_finite s m e =>
      let v := Z.shiftl (Z.pos m) e in if s then - v else v
  | _ => 0
  end.

(** The number of decimal digits of a whole number. *)
Definition digits10 (z : Z) : Z := Z.of_nat (String.length (numeral z)).

(** The number with [k] significant digits that is read back as [x], if
    there is one: the multiple of [10^(digits - k)] below [x] or the one
    above, the nearer of the two, the even one on a tie. *)
Definition candidate (x k : Z) : option Z :=
  let scale := 10 ^ (digits10 x - k) in
  let lo := x / scale * scale in
  let hi := lo + scale in
  match nearest_double lo =? x, nearest_double hi =? x with
  | true, true =>
      if x - lo <? hi - x then Some lo
      else if hi - x <? x - lo then Some hi
      else if Z.even (lo / scale) then Some lo else Some hi
  | true, false => Some lo
  | false, true => Some hi
  | false, false => None
  end.

(** The fewest digits first: 17 significant digits tell any two doubles
    apart. *)
Fixpoint search (x k : Z) (fuel : nat) : Z :=
  match fuel with
  | O => x
  | S fuel' =>
      match candidate x k with
      | Some v => v
      | None => search x (k + 1) fuel'
      end
  end.

(** What is written for a whole number [x] that is not negative. *)
Definition shortest (x : Z) : Z :=
  if x <=? 2 ^ 53 then x else search x 1 17.

Definition written (z : Z) : Z :=
  if z <? 0 then - shortest (- z) else shortest z.

Definition integer (z : Z) : string :=
  let v := written z in
  if Z.abs v <? 10 ^ 21 then numeral v else exponential v.

End Print.

(** Only integers and the non-finite values are printed by the source; a
    finite number is printed through its integer part. *)
Definition Number_toString (n : number) : string :=
  match n with
  | Fin x => Print.integer (Qfloor x)
  | NaN => "NaN"
  | PosInf => "Infinity"
  | NegInf => "-Infinity"
  end.

(** ** Data

    A special offer is an object with a batch size [quantity], a number
    when present (the source uses it as it is), and a per-unit offer
    price, which the source parses.  A product is any object with a
    [price] and an optional [specialOffer]: the calculator reads nothing
    else of it, so it is an interface, and a cart item, which carries these
    two properties itself, is a product too. *)

Record SpecialOffer : Type := {
  so_quantity : option number;
  so_offerPricePerUnit : value
}.

Class ProductLike (A : Type) : Type := {
  price : A -> value;
  specialOffer : A -> option SpecialOffer
}.

Record Product : Type := {
  product_price : value;
  product_specialOffer : option SpecialOffer
}.

#[export] Instance Product_ProductLike : ProductLike Product := {|
  price := product_price;
  specialOffer := product_specialOffer
|}.

Record BreakdownEntry : Type := {
  entry_type : string;
  entry_quantity : number;
  entry_pricePerUnit : number;
  entry_total : number
}.

Record PricingResult : Type := {
  subtotal : number;
  discount : number;
  total : number;
  itemsAtOfferPrice : number;
  itemsAtRegularPrice : number;
  effectivePricePerUnit : number;
  breakdown : list BreakdownEntry
}.

(** ** calculateOfferPricing *)

Section OfferPricing.

Context {A : Type} `{ProductLike A}.

Local Open Scope num_scope.

(** [parseFloat(product.price) || 0] *)
Definition regularPrice (product : A) : number :=
  Num.or_zero (parseFloat (price product)).

(** [product.specialOffer?.quantity || 0] *)
Definition batchSize (product : A) : number :=
  match specialOffer product with
  | Some so =>
      match so_quantity so with
      | Some n => Num.or_zero n
      | None => Num.zero
      end
  | None => Num.zero
  end.

(** [parseFloat(product.specialOffer?.offerPricePerUnit) || 0] *)
Definition offerPricePerUnit (product : A) : number :=
  match specialOffer product with
  | Some so => Num.or_zero (parseFloat (so_offerPricePerUnit so))
  | None => Num.or_zero (parseFloat VUndefined)
  end.

(** The parameter [offerType = 'regular']: an omitted or undefined
    argument is replaced by the default. *)
Definition offerTypeOrDefault (offerType : option string) : string :=
  match offerType with
  | Some s => s
  | None => "regular"
  end.

(** The condition of the first [if]:
    [!product.specialOffer || !batchSize || !offerPricePerUnit
     || offerType === 'regular']. *)
Definition regularOnly (product : A) (offerType : string) : bool :=
  match specialOffer product with None => true | Some _ => false end
  || negb (Num.truthy (batchSize product))
  || negb (Num.truthy (offerPricePerUnit product))
  || String.eqb offerType "regular".

(** [Math.floor(quantity / batchSize)] and [quantity % batchSize] *)
Definition fullBatches (quantity batchSize : number) : number :=
  Num.floor (quantity / batchSize).
Definition remainingItems (quantity batchSize : number) : number :=
  quantity mod batchSize.

(** The object returned when no offer applies. *)
Definition flatPricing (regularPrice quantity : number) : PricingResult :=
  {| subtotal := regularPrice * quantity;
     discount := Num.zero;
     total := regularPrice * quantity;
     itemsAtOfferPrice := Num.zero;
     itemsAtRegularPrice := quantity;
     effectivePricePerUnit := regularPrice;
     breakdown := [] |}.

(** The batch-based pricing, from [fullBatches] to the object returned. *)
Definition batchPricing
    (regularPrice batchSize offerPricePerUnit quantity : number)
    : PricingResult :=
  let fullBatches := fullBatches quantity batchSize in
  let remainingItems := remainingItems quantity batchSize in
  let itemsAtOfferPrice := fullBatches * batchSize in
  let itemsAtRegularPrice := remainingItems in
  let offerTotal := itemsAtOfferPrice * offerPricePerUnit in
  let regularTotal := itemsAtRegularPrice * regularPrice in
  let total := offerTotal + regularTotal in
  let subtotal := quantity * regularPrice in
  let discount := subtotal - total in
  {| subtotal := subtotal;
     discount := discount;
     total := total;
     itemsAtOfferPrice := itemsAtOfferPrice;
     itemsAtRegularPrice := itemsAtRegularPrice;
     effectivePricePerUnit := total / quantity;
     breakdown :=
       (if itemsAtOfferPrice >? Num.zero
        then [ {| entry_type := "offer";
                  entry_quantity := itemsAtOfferPrice;
                  entry_pricePerUnit := offerPricePerUnit;
                  entry_total := offerTotal |} ]
        else [])
       ++
       (if itemsAtRegularPrice >? Num.zero
        then [ {| entry_type := "regular";
                  entry_quantity := itemsAtRegularPrice;
                  entry_pricePerUnit := regularPrice;
                  entry_total := regularTotal |} ]
        else []) |}.

Definition calculateOfferPricing
    (product : A) (quantity : number) (offerType : option string)
    : PricingResult :=
  let offerType := offerTypeOrDefault offerType in
  let regularPrice := regularPrice product in
  let batchSize := batchSize product in
  let offerPricePerUnit := offerPricePerUnit product in
  if regularOnly product offerType
  then flatPricing regularPrice quantity
  else batchPricing regularPrice batchSize offerPricePerUnit quantity.

End OfferPricing.

(** ** calculateCartTotal

    A cart item is passed to [calculateOfferPricing] as the product, with
    its own [quantity] and [offerType]: the price and the special offer
    are read from the item itself.  An item may also have a property
    [product], as the comment on [cartItems] has it; the source does not
    read it. *)

Record CartItem : Type := {
  item_price : value;
  item_specialOffer : option SpecialOffer;
  item_quantity : number;
  item_offerType : option string;
  item_product : option Product
}.

#[export] Instance CartItem_ProductLike : ProductLike CartItem := {|
  price := item_price;
  specialOffer := item_specialOffer
|}.

(** [{...item, pricing}]: a new object with the properties of the item
    and the pricing. *)
Record PricedItem : Type := {
  entry : CartItem;
  pricing : PricingResult
}.

(** The three [let] variables the callback of [map] adds to. *)
Record Totals : Type := {
  totalSubtotal : number;
  totalDiscount : number;
  totalAmount : number
}.

Record CartResult : Type := {
  cart_subtotal : number;
  cart_discount : number;
  cart_total : number;
  cart_items : list PricedItem
}.

Section CartTotal.

Local Open Scope num_scope.

(** [Array.prototype.map] with a callback that updates variables of the
    enclosing function: the callback is run on the elements in index
    order, the state going from one call to the next. *)
Fixpoint Array_map {S X Y : Type} (f : X -> S -> Y * S) (xs : list X) (st : S)
    : list Y * S :=
  match xs with
  | [] => ([], st)
  | x :: xs' =>
      let '(y, st1) := f x st in
      let '(ys, st2) := Array_map f xs' st1 in
      (y :: ys, st2)
  end.

(** The arrow function given to [map]. *)
Definition priceItem (item : CartItem) (st : Totals) : PricedItem * Totals :=
  let pricing := calculateOfferPricing item (item_quantity item) (item_offerType item) in
  let st :=
    {| totalSubtotal := totalSubtotal st + subtotal pricing;
       totalDiscount := totalDiscount st + discount pricing;
       totalAmount := totalAmount st + total pricing |} in
  ({| entry := item; pricing := pricing |}, st).

Definition calculateCartTotal (cartItems : list CartItem) : CartResult :=
  let st :=
    {| totalSubtotal := Num.zero;
       totalDiscount := Num.zero;
       totalAmount := Num.zero |} in
  let '(itemBreakdowns, st) := Array_map priceItem cartItems st in
  {| cart_subtotal := totalSubtotal st;
     cart_discount := totalDiscount st;
     cart_total := totalAmount st;
     cart_items := itemBreakdowns |}.

End CartTotal.

(** ** formatDiscount *)

Definition formatDiscount (discount : number) : string :=
  if (discount >? Num.zero)%num
  then "₹" ++ Number_toString (Num.round discount) ++ " सूट"
  else "".


(** * The pricing of a line in binary floating point

    The numbers of the source are IEEE 754 doubles.  [Double] is
    [calculateOfferPricing] over the doubles of the kernel, with their
    correctly rounded arithmetic, for price fields that hold a number or
    nothing.  It is evaluated where the source leaves whole numbers below
    [2^53], up to which sums, differences and products of whole numbers
    are exact, to show what the source computes there. *)

Module Double.

Definition number : Type := PrimFloat.float.

(** The double nearest to a whole number. *)
Definition of_Z (z : Z) : number :=
  FloatOps.SF2Prim
    (SpecFloat.binary_normalize FloatOps.prec FloatOps.emax z 0 false).

(** The whole number a double holds, when it holds one. *)
Definition to_Z (a : number) : option Z :=
  match FloatOps.Prim2SF a with
  | SpecFloat.S754_zero _ => Some 0
  | SpecFloat.S754_finite s m e =>
      let v :=
        if 0 <=? e then Some (Z.shiftl (Z.pos m) e)
        else if Z.shiftl (Z.shiftr (Z.pos m) (- e)) (- e) =? Z.pos m
             then Some (Z.shiftr (Z.pos m) (- e))
             else None in
      if s then option_map Z.opp v else v
  | _ => None
  end.

Definition zero : number := PrimFloat.zero.

(** ToBoolean: [0], [-0] and NaN are falsy. *)
Definition truthy (a : number) : bool :=
  negb (PrimFloat.is_nan a || PrimFloat.is_zero a).

(** [a || 0] *)
Definition or_zero (a : number) : number := if truthy a then a else zero.

(** [a > b] *)
Definition gt (a b : number) : bool := PrimFloat.ltb b a.

(** [Math.floor]: the floor of a double is a double. *)
Definition floor (a : number) : number :=
  match FloatOps.Prim2SF a with
  | SpecFloat.S754_finite s m e =>
      if 0 <=? e then a
      else
        let n := Z.shiftr (Z.pos m) (- e) in
        let whole := Z.shiftl n (- e) =? Z.pos m in
        if s then (if whole then a else of_Z (- (n + 1)))
        else of_Z n
  | _ => a
  end.

(** [a % b]: the remainder of the division rounded toward zero, with the
    sign of [a]; it is a double, so nothing is rounded. *)
Definition rem (a b : number) : number :=
  match FloatOps.Prim2SF a, FloatOps.Prim2SF b with
  | SpecFloat.S754_nan, _ | _, SpecFloat.S754_nan => PrimFloat.nan
  | SpecFloat.S754_infinity _, _ => PrimFloat.nan
  | _, SpecFloat.S754_zero _ => PrimFloat.nan
  | SpecFloat.S754_zero _, _ => a
  | _, SpecFloat.S754_infinity _ => a
  | SpecFloat.S754_finite sa ma ea, SpecFloat.S754_finite _ mb eb =>
      let e := Z.min ea eb in
      let x := Z.shiftl (Z.pos ma) (ea - e) in
      let y := Z.shiftl (Z.pos mb) (eb - e) in
      let r := Z.rem x y in
      if r =? 0 then (if sa then PrimFloat.neg_zero else PrimFloat.zero)
      else FloatOps.SF2Prim
             (SpecFloat.binary_normalize FloatOps.prec FloatOps.emax
                (if sa then - r else r) e false)
  end.

Record SpecialOffer : Type := {
  quantity : option number;
  offerPricePerUnit : option number
}.

Record Product : Type := {
  price : option number;
  specialOffer : option SpecialOffer
}.

Record BreakdownEntry : Type := {
  entry_type : string;
  entry_quantity : number;
  entry_pricePerUnit : number;
  entry_total : number
}.

Record PricingResult : Type := {
  subtotal : number;
  discount : number;
  total : number;
  itemsAtOfferPrice : number;
  itemsAtRegularPrice : number;
  effectivePricePerUnit : number;
  breakdown : list BreakdownEntry
}.

(** [parseFloat] of a number is the number, of [undefined] NaN. *)
Definition parseFloat (v : option number) : number :=
  match v with
  | Some n => n
  | None => PrimFloat.nan
  end.

Definition regularPrice (product : Product) : number :=
  or_zero (parseFloat (price product)).

Definition batchSize (product : Product) : number :=
  match specialOffer product with
  | Some so =>
      match quantity so with
      | Some n => or_zero n
      | None => zero
      end
  | None => zero
  end.

Definition offerPrice (product : Product) : number :=
  match specialOffer product with
  | Some so => or_zero (parseFloat (offerPricePerUnit so))
  | None => zero
  end.

Definition regularOnly (product : Product) (offerType : string) : bool :=
  match specialOffer product with None => true | Some _ => false end
  || negb (truthy (batchSize product))
  || negb (truthy (offerPrice product))
  || String.eqb offerType "regular".

Definition fullBatches (quantity batchSize : number) : number :=
  floor (PrimFloat.div quantity batchSize).
Definition remainingItems (quantity batchSize : number) : number :=
  rem quantity batchSize.

Definition calculateOfferPricing
    (product : Product) (quantity : number) (offerType : option string)
    : PricingResult :=
  let offerType := match offerType with Some s => s | None => "regular" end in
  let regularPrice := regularPrice product in
  let batchSize := batchSize product in
  let offerPricePerUnit := offerPrice product in
  if regularOnly product offerType then
    {| subtotal := PrimFloat.mul regularPrice quantity;
       discount := zero;
       total := PrimFloat.mul regularPrice quantity;
       itemsAtOfferPrice := zero;
       itemsAtRegularPrice := quantity;
       effectivePricePerUnit := regularPrice;
       breakdown := [] |}
  else
    let fullBatches := fullBatches quantity batchSize in
    let remainingItems := remainingItems quantity batchSize in
    let itemsAtOfferPrice := PrimFloat.mul fullBatches batchSize in
    let itemsAtRegularPrice := remainingItems in
    let offerTotal := PrimFloat.mul itemsAtOfferPrice offerPricePerUnit in
    let regularTotal := PrimFloat.mul itemsAtRegularPrice regularPrice in
    let total := PrimFloat.add offerTotal regularTotal in
    let subtotal := PrimFloat.mul quantity regularPrice in
    let discount := PrimFloat.sub subtotal total in
    {| subtotal := subtotal;
       discount := discount;
       total := total;
       itemsAtOfferPrice := itemsAtOfferPrice;
       itemsAtRegularPrice := itemsAtRegularPrice;
       effectivePricePerUnit := PrimFloat.div total quantity;
       breakdown :=
         (if gt itemsAtOfferPrice zero
          then [ {| entry_type := "offer";
                    entry_quantity := itemsAtOfferPrice;
                    entry_pricePerUnit := offerPricePerUnit;
                    entry_total := offerTotal |} ]
          else [])
         ++ (if gt itemsAtRegularPrice zero
             then [ {| entry_type := "regular";
                       entry_quantity := itemsAtRegularPrice;
                       entry_pricePerUnit := regularPrice;
                       entry_total := regularTotal |} ]
             else []) |}.

(** A product with whole numbers: a price, and batches of a size at an
    offer price per unit. *)
Definition whole_product (p b u : Z) : Product :=
  {| price := Some (of_Z p);
     specialOffer :=
       Some {| quantity := Some (of_Z b);
               offerPricePerUnit := Some (of_Z u) |} |}.

End Double.

(** * The text editor: the change handler

    [handleChange] of the [RichTextEditor] component.  The text of the
    editor is a JavaScript string, here the list of its UTF-16 code units,
    which is what [length] counts and [substring] cuts.  The handler calls
    [onChange] or [quill.setText]; these calls are its result here. *)

Module Editor.

Definition jsstring : Type := list N.

(** The code units [trim] removes: white space and line terminators. *)
Definition isWhiteSpace (c : N) : bool :=
  ((9 <=? c) && (c <=? 13))%N
  || (c =? 32)%N || (c =? 160)%N || (c =? 5760)%N
  || ((8192 <=? c) && (c <=? 8202))%N
  || (c =? 8232)%N || (c =? 8233)%N || (c =? 8239)%N || (c =? 8287)%N
  || (c =? 12288)%N || (c =? 65279)%N.

Fixpoint dropWhile {X : Type} (f : X -> bool) (xs : list X) : list X :=
  match xs with
  | [] => []
  | x :: xs' => if f x then dropWhile f xs' else xs
  end.

Definition trimStart (s : jsstring) : jsstring := dropWhile isWhiteSpace s.
Definition trimEnd (s : jsstring) : jsstring :=
  rev (dropWhile isWhiteSpace (rev s)).

(** [s.trim()] *)
Definition trim (s : jsstring) : jsstring := trimEnd (trimStart s).

(** [s.length], a number. *)
Definition length (s : jsstring) : number := of_Z (Z.of_nat (List.length s)).

(** The end index of [s.substring(0, n)]: [n] is made an integer, NaN
    counting as 0, and brought into the string. *)
Definition substringEnd (s : jsstring) (n : number) : nat :=
  match n with
  | Fin x => Z.to_nat (Z.min (Z.max (Num.Qc_trunc x) 0) (Z.of_nat (List.length s)))
  | PosInf => List.length s
  | NegInf | NaN => 0%nat
  end.

(** [s.substring(0, n)] *)
Definition substring0 (s : jsstring) (n : number) : jsstring :=
  firstn (substringEnd s n) s.

(** The parameter [maxLength = 1500]. *)
Definition maxLengthOrDefault (maxLength : option number) : number :=
  match maxLength with
  | Some n => n
  | None => of_Z 1500
  end.

(** What the handler does: a call of [onChange] or of [quill.setText]. *)
Inductive call (C : Type) : Type :=
| OnChange (content : C)
| SetText (text : jsstring).

Arguments OnChange {C} content.
Arguments SetText {C} text.

(** [handleChange (content, delta, source, editor)], with [text] for
    [editor.getText()] and [quill] telling whether
    [quillRef.current?.getEditor()] gave an editor. *)
Definition handleChange {C : Type}
    (maxLength : number) (quill : bool) (content : C) (text : jsstring)
    : list (call C) :=
  let length := length (trim text) in
  if (length <=? maxLength)%num then [OnChange content]
  else
    let truncated := substring0 text maxLength in
    if quill then [SetText truncated] else [].

End Editor.

(** * Definitions used by the statements *)

(** Equality of numbers as values (NaN is the same value as NaN here; this
    is not the operator [===]), decided. *)
Definition number_eqb (a b : number) : bool :=
  match a, b with
  | Fin x, Fin y => Num.Qc_eqb x y
  | NaN, NaN | PosInf, PosInf | NegInf, NegInf => true
  | _, _ => false
  end.

Definition entry_eqb (e f : BreakdownEntry) : bool :=
  String.eqb (entry_type e) (entry_type f)
  && number_eqb (entry_quantity e) (entry_quantity f)
  && number_eqb (entry_pricePerUnit e) (entry_pricePerUnit f)
  && number_eqb (entry_total e) (entry_total f).

Fixpoint list_eqb {X : Type} (eqb : X -> X -> bool) (xs ys : list X) : bool :=
  match xs, ys with
  | [], [] => true
  | x :: xs', y :: ys' => eqb x y && list_eqb eqb xs' ys'
  | _, _ => false
  end.

(** The sum of a list of numbers. *)
Definition sum (xs : list number) : number := fold_right Num.add Num.zero xs.

(** A number that is zero or NaN. *)
Definition zero_or_NaN (a : number) : Prop := a = Num.zero \/ a = NaN.

(** The element [map] builds for an item. *)
Definition priced (item : CartItem) : PricedItem :=
  {| entry := item;
     pricing := calculateOfferPricing item (item_quantity item) (item_offerType item) |}.

(** ** The rule of the specification *)

(** The eligibility rule as the specification words it: an offer is
    present, the batch size is above 0, the offer price per unit is above 0
    and the offer type is bulk. *)
Definition spec_eligible {A : Type} `{ProductLike A}
    (product : A) (offerType : string) : bool :=
  match specialOffer product with Some _ => true | None => false end
  && (batchSize product >? Num.zero)%num
  && (offerPricePerUnit product >? Num.zero)%num
  && String.eqb offerType "bulk".

(** ** Examples *)

Definition ex_offer (batch : Z) (unitPrice : Z) : SpecialOffer :=
  {| so_quantity := Some (of_Z batch);
     so_offerPricePerUnit := VNum (of_Z unitPrice) |}.

(** Price 100, three units per batch at 250 a unit. *)
Definition ex_product : Product :=
  {| product_price := VNum (of_Z 100);
     product_specialOffer := Some (ex_offer 3 250) |}.

(** The same with a batch size of -3. *)
Definition ex_negative_batch : Product :=
  {| product_price := VNum (of_Z 100);
     product_specialOffer := Some (ex_offer (-3) 250) |}.

(** Two cart items: seven units of the product above in bulk, and two
    units of a product without offer. *)
Definition ex_item_bulk : CartItem :=
  {| item_price := VNum (of_Z 100);
     item_specialOffer := Some (ex_offer 3 250);
     item_quantity := of_Z 7;
     item_offerType := Some "bulk";
     item_product := None |}.

Definition ex_item_plain : CartItem :=
  {| item_price := VStr "40";
     item_specialOffer := None;
     item_quantity := of_Z 2;
     item_offerType := None;
     item_product := None |}.

(** ** Whole numbers the arithmetic of the source keeps exact *)

(** [Number.MAX_SAFE_INTEGER], [2^53 - 1]: up to it every whole number is
    a double, and a sum, a difference or a product of whole numbers that
    stays within it is computed without rounding. *)
Definition MAX_SAFE_INTEGER : Z := 9007199254740991.

(** A line in whole numbers: the batch branch is taken for [q] units of a
    product with the regular price [p], in batches of [b] units at [u] a
    unit, where neither the batch size, the prices nor what the quantity
    costs at either price goes beyond [MAX_SAFE_INTEGER]; the quantity is
    then within it as well. *)
Definition safe_whole_line {A : Type} `{ProductLike A}
    (product : A) (offerType : option string) (q b p u : Z) : Prop :=
  regularOnly product (offerTypeOrDefault offerType) = false
  /\ batchSize product = of_Z b
  /\ (0 < b <= MAX_SAFE_INTEGER)%Z
  /\ regularPrice product = of_Z p
  /\ (0 <= p <= MAX_SAFE_INTEGER)%Z
  /\ offerPricePerUnit product = of_Z u
  /\ (0 < u <= MAX_SAFE_INTEGER)%Z
  /\ (0 <= q)%Z
  /\ (q * p <= MAX_SAFE_INTEGER)%Z
  /\ (q * u <= MAX_SAFE_INTEGER)%Z.

(** ** The reading of the specification for a cart entry *)

(** The pricing of an entry as the specification words it: the line
    calculator applied to the product the entry carries, with the quantity
    and the offer type of the entry. *)
Definition spec_entry_pricing (item : CartItem) : option PricingResult :=
  match item_product item with
  | Some product =>
      Some (calculateOfferPricing product (item_quantity item)
              (item_offerType item))
  | None => None
  end.

(** What the source reads of a cart item. *)
Definition fields_read (item : CartItem)
    : value * option SpecialOffer * number * option string :=
  (item_price item, item_specialOffer item, item_quantity item,
   item_offerType item).

(** A cart entry that carries its product as the property [product] and
    has no price and no offer of its own. *)
Definition ex_nested : CartItem :=
  {| item_price := VUndefined;
     item_specialOffer := None;
     item_quantity := of_Z 7;
     item_offerType := Some "bulk";
     item_product := Some ex_product |}.

(** ** Definitions for further properties *)

(** A number that is neither NaN nor an infinity. *)
Definition is_finite (n : number) : bool :=
  match n with Fin _ => true | _ => false end.

(** The batch branch on whole numbers: the second branch of
    [calculateOfferPricing] is taken, the batch size is the positive whole
    number [b], and the regular price [p] and the offer price per unit [u]
    are finite. *)
Definition whole_batch_offer {A : Type} `{ProductLike A}
    (product : A) (offerType : option string) (b : Z) (p u : Qc) : Prop :=
  regularOnly product (offerTypeOrDefault offerType) = false
  /\ batchSize product = of_Z b
  /\ (0 < b)%Z
  /\ regularPrice product = Fin p
  /\ offerPricePerUnit product = Fin u.

(** The two entries a breakdown can hold. *)
Definition offerEntry (units unitPrice : number) : BreakdownEntry :=
  {| entry_type := "offer"; entry_quantity := units;
     entry_pricePerUnit := unitPrice;
     entry_total := (units * unitPrice)%num |}.

Definition regularEntry (units unitPrice : number) : BreakdownEntry :=
  {| entry_type := "regular"; entry_quantity := units;
     entry_pricePerUnit := unitPrice;
     entry_total := (units * unitPrice)%num |}.

(** ** Further examples *)

(** Price 100, three units per batch at 80 a unit. *)
Definition ex_discounted : Product :=
  {| product_price := VNum (of_Z 100);
     product_specialOffer := Some (ex_offer 3 80) |}.

(** A product without price and without offer. *)
Definition ex_unpriced : Product :=
  {| product_price := VUndefined; product_specialOffer := None |}.

(** An offer that has a price and no batch size. *)
Definition ex_sizeless_offer : SpecialOffer :=
  {| so_quantity := None; so_offerPricePerUnit := VNum (of_Z 80) |}.

Definition ex_sizeless : Product :=
  {| product_price := VNum (of_Z 100);
     product_specialOffer := Some ex_sizeless_offer |}.

(** * Properties *)

(** ** Facts about numbers *)

Section NumberFacts.

Local Open Scope Qc_scope.

Lemma Qc_eqb_eq (x y : Qc) : Num.Qc_eqb x y = true <-> x = y.
Proof.
  unfold Num.Qc_eqb. rewrite Qeq_bool_iff. split.
  - apply Qc_is_canon.
  - intros ->. reflexivity.
Qed.

Lemma Qc_eqb_neq (x y : Qc) : Num.Qc_eqb x y = false <-> x <> y.
Proof.
  rewrite <- Qc_eqb_eq. destruct (Num.Qc_eqb x y); split; congruence.
Qed.

Lemma Qc_ltb_lt (x y : Qc) : Num.Qc_ltb x y = true <-> x < y.
Proof.
  unfold Num.Qc_ltb. rewrite Qclt_alt.
  destruct (x ?= y); split; congruence.
Qed.

Lemma Qc_ltb_ge (x y : Qc) : Num.Qc_ltb x y = false <-> y <= x.
Proof.
  split; intros Hxy.
  - apply Qcnot_lt_le. intros Hlt. apply Qc_ltb_lt in Hlt. congruence.
  - destruct (Num.Qc_ltb x y) eqn:E; [|reflexivity].
    apply Qc_ltb_lt in E. exfalso. exact (Qcle_not_lt _ _ Hxy E).
Qed.

Lemma this_Zc (z : Z) : (this (Zc z) == inject_Z z)%Q.
Proof. apply Qred_correct. Qed.

Lemma Qfloor_Zc (z : Z) : Qfloor (Zc z) = z.
Proof. rewrite (Qfloor_comp _ _ (this_Zc z)). apply Qfloor_Z. Qed.

Lemma Qceiling_Zc (z : Z) : Qceiling (Zc z) = z.
Proof. rewrite (Qceiling_comp _ _ (this_Zc z)). apply Qceiling_Z. Qed.

Lemma Qc_trunc_Zc (z : Z) : Num.Qc_trunc (Zc z) = z.
Proof.
  unfold Num.Qc_trunc. destruct (Num.Qc_neg (Zc z)).
  - apply Qceiling_Zc.
  - apply Qfloor_Zc.
Qed.

Lemma this_Qcplus (x y : Qc) : (this (x + y) == this x + this y)%Q.
Proof. unfold Qcplus, Q2Qc. cbn [this]. apply Qred_correct. Qed.

Lemma this_Qcmult (x y : Qc) : (this (x * y) == this x * this y)%Q.
Proof. unfold Qcmult, Q2Qc. cbn [this]. apply Qred_correct. Qed.

Lemma this_Qcopp (x : Qc) : (this (- x) == - this x)%Q.
Proof. unfold Qcopp, Q2Qc. cbn [this]. apply Qred_correct. Qed.

Lemma Zc_add (a b : Z) : Zc (a + b) = Zc a + Zc b.
Proof.
  apply Qc_is_canon. rewrite this_Qcplus, !this_Zc, inject_Z_plus. reflexivity.
Qed.

Lemma Zc_mul (a b : Z) : Zc (a * b) = Zc a * Zc b.
Proof.
  apply Qc_is_canon. rewrite this_Qcmult, !this_Zc, inject_Z_mult. reflexivity.
Qed.

Lemma Zc_opp (a : Z) : Zc (- a) = - Zc a.
Proof.
  apply Qc_is_canon. rewrite this_Qcopp, !this_Zc, inject_Z_opp. reflexivity.
Qed.

Lemma Zc_sub (a b : Z) : Zc (a - b) = Zc a - Zc b.
Proof.
  unfold Z.sub, Qcminus. rewrite Zc_add, Zc_opp. reflexivity.
Qed.

Lemma Zc_inj (a b : Z) : Zc a = Zc b -> a = b.
Proof.
  intros E. rewrite <- (Qfloor_Zc a), <- (Qfloor_Zc b), E. reflexivity.
Qed.

Lemma Zc_lt (a b : Z) : Zc a < Zc b <-> (a < b)%Z.
Proof.
  unfold Qclt. rewrite !this_Zc, <- Zlt_Qlt. reflexivity.
Qed.

Lemma Zc_le (a b : Z) : Zc a <= Zc b <-> (a <= b)%Z.
Proof.
  unfold Qcle. rewrite !this_Zc, <- Zle_Qle. reflexivity.
Qed.

Lemma this_Qcdiv (x y : Qc) : (this (x / y) == this x / this y)%Q.
Proof.
  unfold Qcdiv. rewrite this_Qcmult. unfold Qcinv, Q2Qc. cbn [this].
  rewrite Qred_correct. reflexivity.
Qed.

(** The floor of a quotient of integers is the integer quotient. *)
Lemma Qfloor_Zc_div (q b : Z) : Qfloor (this (Zc q / Zc b)%Qc) = (q / b)%Z.
Proof.
  rewrite (Qfloor_comp _ _ (this_Qcdiv _ _)).
  rewrite (Qfloor_comp _ (inject_Z q / inject_Z b)%Q).
  - symmetry. apply Zdiv_Qdiv.
  - rewrite !this_Zc. reflexivity.
Qed.

Lemma Qcdiv_nonneg (x y : Qc) : 0 <= x -> 0 < y -> 0 <= x / y.
Proof.
  intros Hx Hy. unfold Qcle. rewrite this_Qcdiv.
  apply Qle_shift_div_l; [exact Hy|].
  rewrite Qmult_0_l. exact Hx.
Qed.

(** On a quotient that is not negative, rounding toward zero is [floor]. *)
Lemma Qc_trunc_nonneg (x : Qc) : 0 <= x -> Num.Qc_trunc x = Qfloor x.
Proof.
  intros Hx. unfold Num.Qc_trunc, Num.Qc_neg.
  apply Qc_ltb_ge in Hx. rewrite Hx. reflexivity.
Qed.

End NumberFacts.

Lemma number_eqb_eq (a b : number) : number_eqb a b = true <-> a = b.
Proof.
  destruct a, b; simpl; try (split; congruence).
  rewrite Qc_eqb_eq. split; congruence.
Qed.

Lemma entry_eqb_eq (e f : BreakdownEntry) : entry_eqb e f = true <-> e = f.
Proof.
  destruct e, f; unfold entry_eqb; simpl.
  rewrite !andb_true_iff, !number_eqb_eq, String.eqb_eq.
  split.
  - intros [[[-> ->] ->] ->]. reflexivity.
  - intros E. injection E as -> -> -> ->. auto.
Qed.

Lemma list_eqb_eq {X : Type} (eqb : X -> X -> bool) :
  (forall x y, eqb x y = true <-> x = y) ->
  forall xs ys, list_eqb eqb xs ys = true <-> xs = ys.
Proof.
  intros Heq. induction xs as [|x xs IH]; destruct ys as [|y ys]; simpl;
    try (split; congruence).
  rewrite andb_true_iff, Heq, IH. split.
  - intros [-> ->]. reflexivity.
  - intros E. injection E as -> ->. auto.
Qed.

(** Closed equalities and disequalities between numbers, by evaluation. *)
Ltac number_eq := apply number_eqb_eq; vm_compute; reflexivity.
Ltac number_neq :=
  let E := fresh in
  intros E; apply number_eqb_eq in E; vm_compute in E; discriminate E.
Ltac conjuncts := cbv zeta; repeat match goal with |- _ /\ _ => split end.
Ltac breakdown_eq :=
  apply (list_eqb_eq entry_eqb entry_eqb_eq); vm_compute; reflexivity.

(** ** Addition is a commutative monoid on numbers *)

Section Addition.

Local Open Scope num_scope.

Lemma add_comm (a b : number) : a + b = b + a.
Proof.
  destruct a, b; simpl; try reflexivity.
  f_equal. apply Qcplus_comm.
Qed.

Lemma add_assoc (a b c : number) : a + (b + c) = (a + b) + c.
Proof.
  destruct a, b, c; simpl; try reflexivity.
  f_equal. apply Qcplus_assoc.
Qed.

Lemma add_zero_l (a : number) : Num.zero + a = a.
Proof.
  destruct a; simpl; try reflexivity.
  f_equal. apply Qcplus_0_l.
Qed.

Lemma add_zero_r (a : number) : a + Num.zero = a.
Proof. rewrite add_comm. apply add_zero_l. Qed.

Lemma sum_app (xs ys : list number) : sum (xs ++ ys) = sum xs + sum ys.
Proof.
  induction xs as [|x xs IH]; simpl.
  - symmetry. apply add_zero_l.
  - rewrite IH. apply add_assoc.
Qed.

Lemma sum_Permutation (xs ys : list number) :
  Permutation xs ys -> sum xs = sum ys.
Proof.
  induction 1 as [| x xs ys _ IH | x y xs | xs ys zs _ IH1 _ IH2]; simpl.
  - reflexivity.
  - rewrite IH. reflexivity.
  - rewrite !add_assoc, (add_comm y x). reflexivity.
  - congruence.
Qed.

End Addition.

(** ** Which branch is taken *)

Section Eligibility.

Context {A : Type} `{ProductLike A}.

Local Open Scope num_scope.

Lemma truthy_or_zero (a : number) :
  Num.truthy (Num.or_zero a) = true <-> Num.or_zero a <> Num.zero.
Proof.
  unfold Num.or_zero. destruct (Num.truthy a) eqn:E.
  - rewrite E. split; [|reflexivity]. intros _ ->. discriminate E.
  - split; [discriminate|]. intros N. exfalso. apply N. reflexivity.
Qed.

Lemma truthy_batchSize (product : A) :
  Num.truthy (batchSize product) = true <-> batchSize product <> Num.zero.
Proof.
  unfold batchSize. destruct (specialOffer product) as [so|].
  - destruct (so_quantity so) as [n|].
    + apply truthy_or_zero.
    + split; [discriminate|]. intros N. exfalso. apply N. reflexivity.
  - split; [discriminate|]. intros N. exfalso. apply N. reflexivity.
Qed.

Lemma truthy_offerPricePerUnit (product : A) :
  Num.truthy (offerPricePerUnit product) = true
  <-> offerPricePerUnit product <> Num.zero.
Proof.
  unfold offerPricePerUnit. destruct (specialOffer product); apply truthy_or_zero.
Qed.

Lemma gt_zero_truthy (a : number) : (a >? Num.zero) = true -> Num.truthy a = true.
Proof.
  destruct a as [x| | |]; simpl; try congruence.
  intros Hx. apply Qc_ltb_lt in Hx.
  destruct (Num.Qc_eqb x 0%Qc) eqn:E; [|reflexivity].
  apply Qc_eqb_eq in E. subst x. exfalso. exact (Qclt_not_eq _ _ Hx eq_refl).
Qed.

Lemma gt_zero_neq (a : number) : (a >? Num.zero) = true -> a <> Num.zero.
Proof. intros G ->. vm_compute in G. discriminate G. Qed.

(** The second branch is taken exactly when an offer is present, its batch
    size and its unit price are not zero, and the offer type is not
    ["regular"]. *)
Lemma regularOnly_false_iff (product : A) (offerType : string) :
  regularOnly product offerType = false
  <-> specialOffer product <> None
      /\ batchSize product <> Num.zero
      /\ offerPricePerUnit product <> Num.zero
      /\ offerType <> "regular".
Proof.
  unfold regularOnly.
  rewrite !orb_false_iff, !negb_false_iff, String.eqb_neq,
    truthy_batchSize, truthy_offerPricePerUnit.
  destruct (specialOffer product); intuition congruence.
Qed.

End Eligibility.

Section Branches.

Context {A : Type} `{ProductLike A}.

Local Open Scope num_scope.

(** C1, as amended.  For an offer type that is ["regular"] or ["bulk"],
    batch pricing is applied exactly when an offer is present, its batch
    size is not zero, its offer price per unit is not zero and the offer
    type is ["bulk"]; in every other case the result is the flat one:
    subtotal and total are price times quantity, the discount is 0, every
    unit is counted at the regular price and the breakdown is empty. *)
Theorem flat_unless_nonzero_bulk_offer
    (product : A) (quantity : number) (offerType : string) :
  offerType = "regular" \/ offerType = "bulk" ->
  let applies :=
    specialOffer product <> None
    /\ batchSize product <> Num.zero
    /\ offerPricePerUnit product <> Num.zero
    /\ offerType = "bulk" in
  (regularOnly product offerType = false <-> applies)
  /\ (applies ->
      calculateOfferPricing product quantity (Some offerType)
      = batchPricing (regularPrice product) (batchSize product)
          (offerPricePerUnit product) quantity)
  /\ (~ applies ->
      calculateOfferPricing product quantity (Some offerType)
      = {| subtotal := regularPrice product * quantity;
           discount := Num.zero;
           total := regularPrice product * quantity;
           itemsAtOfferPrice := Num.zero;
           itemsAtRegularPrice := quantity;
           effectivePricePerUnit := regularPrice product;
           breakdown := [] |}).
Proof.
  intros Htype applies.
  assert (Hiff : regularOnly product offerType = false <-> applies).
  { rewrite regularOnly_false_iff. unfold applies.
    destruct Htype as [-> | ->]; intuition congruence. }
  split; [exact Hiff|]. unfold calculateOfferPricing. simpl.
  split.
  - intros Happ. apply Hiff in Happ. rewrite Happ. reflexivity.
  - intros Hno. destruct (regularOnly product offerType) eqn:E.
    + reflexivity.
    + exfalso. apply Hno, Hiff. reflexivity.
Qed.

(** C10, as amended.  When an offer is present with a batch size above 0
    and an offer price per unit above 0, batch pricing is applied for
    every offer type that is given and is not the string ["regular"],
    whether it is ["bulk"] or not: the result is the one written below,
    with the full batches at the offer price and the remainder at the
    regular price, and as soon as a full batch fits it counts units at the
    offer price and its breakdown starts with the offer entry, which the
    flat result never does. *)
Theorem batch_pricing_for_any_type_but_regular
    (product : A) (quantity : number) (offerType : string) :
  specialOffer product <> None ->
  (batchSize product >? Num.zero) = true ->
  (offerPricePerUnit product >? Num.zero) = true ->
  offerType <> "regular" ->
  let r := calculateOfferPricing product quantity (Some offerType) in
  let b := batchSize product in
  let u := offerPricePerUnit product in
  let p := regularPrice product in
  let units := Num.floor (quantity / b) * b in
  let rest := quantity mod b in
  let offerEntries :=
    if units >? Num.zero
    then [ {| entry_type := "offer"; entry_quantity := units;
              entry_pricePerUnit := u; entry_total := units * u |} ]
    else [] in
  let regularEntries :=
    if rest >? Num.zero
    then [ {| entry_type := "regular"; entry_quantity := rest;
              entry_pricePerUnit := p; entry_total := rest * p |} ]
    else [] in
  regularOnly product offerType = false
  /\ r = {| subtotal := quantity * p;
            discount := quantity * p - (units * u + rest * p);
            total := units * u + rest * p;
            itemsAtOfferPrice := units;
            itemsAtRegularPrice := rest;
            effectivePricePerUnit := (units * u + rest * p) / quantity;
            breakdown := (offerEntries ++ regularEntries)%list |}
  /\ ((units >? Num.zero) = true ->
      itemsAtOfferPrice r <> Num.zero
      /\ exists others,
           breakdown r
           = {| entry_type := "offer"; entry_quantity := units;
                entry_pricePerUnit := u; entry_total := units * u |}
             :: others).
Proof.
  intros Hso Hb Hp Htype r b u p units rest offerEntries regularEntries.
  assert (E : regularOnly product offerType = false).
  { apply regularOnly_false_iff. repeat split; try assumption.
    - apply truthy_batchSize, gt_zero_truthy, Hb.
    - apply truthy_offerPricePerUnit, gt_zero_truthy, Hp. }
  assert (R : r = {| subtotal := quantity * p;
                     discount := quantity * p - (units * u + rest * p);
                     total := units * u + rest * p;
                     itemsAtOfferPrice := units;
                     itemsAtRegularPrice := rest;
                     effectivePricePerUnit := (units * u + rest * p) / quantity;
                     breakdown := (offerEntries ++ regularEntries)%list |}).
  { subst r. unfold calculateOfferPricing. cbv zeta.
    change (offerTypeOrDefault (Some offerType)) with offerType.
    rewrite E. reflexivity. }
  split; [exact E|]. split; [exact R|].
  intros Hunits. rewrite R. cbn [itemsAtOfferPrice breakdown].
  split.
  - apply gt_zero_neq. exact Hunits.
  - subst offerEntries. rewrite Hunits. eexists. reflexivity.
Qed.

(** An omitted offer type is the default, ["regular"]: the flat result. *)
Lemma omitted_offerType_is_regular (product : A) (quantity : number) :
  calculateOfferPricing product quantity None
  = flatPricing (regularPrice product) quantity.
Proof.
  unfold calculateOfferPricing, regularOnly. simpl.
  rewrite !orb_true_r. reflexivity.
Qed.

Lemma zero_mul_any (a : number) : zero_or_NaN (Num.zero * a).
Proof.
  destruct a as [x| | |]; [left|right|right|right]; try reflexivity.
  unfold Num.zero, of_Z. simpl. f_equal. apply Qcmult_0_l.
Qed.

Lemma zero_or_NaN_mul (a b : number) : zero_or_NaN a -> zero_or_NaN (a * b).
Proof.
  intros [-> | ->].
  - apply zero_mul_any.
  - right. reflexivity.
Qed.

Lemma zero_or_NaN_add (a b : number) :
  zero_or_NaN a -> zero_or_NaN b -> zero_or_NaN (a + b).
Proof.
  intros [-> | ->] [-> | ->]; [left|right|right|right]; reflexivity.
Qed.

Lemma zero_or_NaN_div_zero (a : number) : zero_or_NaN a -> a / Num.zero = NaN.
Proof. intros [-> | ->]; reflexivity. Qed.

Lemma fullBatches_of_zero (b : number) :
  Num.truthy b = true -> fullBatches Num.zero b = Num.zero.
Proof.
  unfold fullBatches. destruct b as [y| | |]; simpl; try congruence;
    try reflexivity.
  intros Hy. apply negb_true_iff in Hy. rewrite Hy.
  change (Zc 0) with 0%Qc.
  unfold Qcdiv. rewrite Qcmult_0_l. reflexivity.
Qed.

Lemma remainingItems_of_zero (b : number) :
  Num.truthy b = true -> remainingItems Num.zero b = Num.zero.
Proof.
  unfold remainingItems. destruct b as [y| | |]; simpl; try congruence;
    try reflexivity.
  intros Hy. apply negb_true_iff in Hy. rewrite Hy.
  change (Zc 0) with 0%Qc.
  unfold Qcdiv. rewrite Qcmult_0_l.
  change (Zc (Num.Qc_trunc 0%Qc)) with 0%Qc.
  unfold Num.zero, of_Z. f_equal.
  change (Zc 0) with 0%Qc. ring.
Qed.

(** C9.  When no offer applies the effective price per unit is the regular
    price, whatever the quantity, zero included.  When batch pricing
    applies it is the quotient [total / quantity], taken as it is: for a
    quantity of 0 it is the result of [0 / 0], which is NaN: not a finite
    number, and not 0. *)
Theorem effectivePricePerUnit_by_branch
    (product : A) (quantity : number) (offerType : option string) :
  let r := calculateOfferPricing product quantity offerType in
  let flat := regularOnly product (offerTypeOrDefault offerType) in
  (flat = true -> effectivePricePerUnit r = regularPrice product)
  /\ (flat = false -> effectivePricePerUnit r = total r / quantity)
  /\ (flat = false -> quantity = Num.zero ->
      effectivePricePerUnit r = Num.zero / Num.zero
      /\ effectivePricePerUnit r = NaN
      /\ (forall x : Qc, effectivePricePerUnit r <> Fin x)).
Proof.
  intros r flat. subst r flat. unfold calculateOfferPricing. cbv zeta.
  split; [|split].
  - intros ->. reflexivity.
  - intros ->. reflexivity.
  - intros E ->. rewrite E. unfold batchPricing. cbv zeta.
    cbn [effectivePricePerUnit total].
    apply regularOnly_false_iff in E.
    destruct E as (_ & Hb & Hp & _).
    apply truthy_batchSize in Hb.
    rewrite (fullBatches_of_zero _ Hb), (remainingItems_of_zero _ Hb).
    assert (Z : zero_or_NaN
                  (Num.zero * batchSize product * offerPricePerUnit product
                   + Num.zero * regularPrice product)).
    { apply zero_or_NaN_add; [apply zero_or_NaN_mul|]; apply zero_mul_any. }
    rewrite (zero_or_NaN_div_zero _ Z).
    split; [reflexivity|]. split; [reflexivity|]. discriminate.
Qed.

End Branches.

(** ** Batches of whole numbers *)

Section Batches.

Local Open Scope num_scope.

Lemma Zc_eqb_zero (b : Z) : b <> 0%Z -> Num.Qc_eqb (Zc b) 0%Qc = false.
Proof.
  intros Hb. apply Qc_eqb_neq. intros E. apply Hb.
  apply Zc_inj. exact E.
Qed.

(** [Math.floor(quantity / batchSize)] on integers is the integer quotient. *)
Lemma fullBatches_of_Z (q b : Z) :
  b <> 0%Z -> fullBatches (of_Z q) (of_Z b) = of_Z (q / b).
Proof.
  intros Hb. unfold fullBatches, of_Z, Num.div.
  rewrite (Zc_eqb_zero b Hb). cbn [Num.floor]. unfold of_Z.
  rewrite Qfloor_Zc_div. reflexivity.
Qed.

(** [quantity % batchSize] on a quantity that is not negative and a
    positive batch size is the integer remainder. *)
Lemma remainingItems_of_Z (q b : Z) :
  (0 <= q)%Z -> (0 < b)%Z ->
  remainingItems (of_Z q) (of_Z b) = of_Z (q mod b).
Proof.
  intros Hq Hb. unfold remainingItems, of_Z, Num.rem.
  rewrite (Zc_eqb_zero b) by lia. f_equal.
  rewrite Qc_trunc_nonneg.
  - rewrite Qfloor_Zc_div, Z.mod_eq, Zc_sub, Zc_mul by lia. reflexivity.
  - apply Qcdiv_nonneg.
    + change 0%Qc with (Zc 0). apply Zc_le. exact Hq.
    + change 0%Qc with (Zc 0). apply Zc_lt. exact Hb.
Qed.

(** The units in full batches and the units left over make up the
    quantity, for a quantity that is not negative and a positive batch
    size, whole or not. *)
Lemma batches_and_remainder (x y : Qc) :
  (0 <= x)%Qc -> (0 < y)%Qc ->
  fullBatches (Fin x) (Fin y) * Fin y + remainingItems (Fin x) (Fin y) = Fin x.
Proof.
  intros Hx Hy.
  assert (Hy0 : Num.Qc_eqb y 0%Qc = false).
  { apply Qc_eqb_neq. intros ->. exact (Qclt_not_eq _ _ Hy eq_refl). }
  unfold fullBatches, remainingItems, Num.div, Num.rem. rewrite Hy0.
  cbn [Num.floor Num.mul Num.add of_Z]. f_equal.
  rewrite Qc_trunc_nonneg by (apply Qcdiv_nonneg; assumption).
  ring.
Qed.

(** The units in full batches are a multiple of the batch size. *)
Lemma full_batches_multiple (x y : Qc) :
  y <> 0%Qc ->
  (fullBatches (Fin x) (Fin y) * Fin y) mod Fin y = Num.zero.
Proof.
  intros Hy.
  assert (Hy0 : Num.Qc_eqb y 0%Qc = false) by (apply Qc_eqb_neq; exact Hy).
  unfold fullBatches, Num.div. rewrite Hy0.
  cbn [Num.floor Num.mul Num.rem of_Z]. rewrite Hy0.
  unfold Num.zero, of_Z. f_equal.
  replace (Zc (Qfloor (x / y)%Qc) * y / y)%Qc with (Zc (Qfloor (x / y)%Qc))
    by (field; exact Hy).
  rewrite Qc_trunc_Zc. change (Zc 0) with 0%Qc. ring.
Qed.

Lemma of_Z_inj (a b : Z) : of_Z a = of_Z b -> a = b.
Proof.
  intros E. apply Zc_inj.
  exact (f_equal (fun n => match n with Fin x => x | _ => 0%Qc end) E).
Qed.

Lemma of_Z_mul (a b : Z) : of_Z a * of_Z b = of_Z (a * b).
Proof. unfold of_Z. simpl. rewrite Zc_mul. reflexivity. Qed.

Context {A : Type} `{ProductLike A}.

(** C2, as amended.  When batch pricing is eligible, for a quantity [q]
    and a batch size [b] that are whole numbers, [q] from 0 and [b] from 1
    up to [2^53 - 1]: the full batches are [floor (q / b)], the remainder
    is [q mod b], the units at the offer price are the full batches times
    [b], the units at the regular price are the remainder, the total is
    the offer total plus the regular total, the subtotal is the quantity
    times the regular price and the discount is the subtotal minus the
    total.  Within these bounds the rounded quotient of the source has the
    floor of the exact one, and the units are whole numbers below [2^53];
    the totals are written with the operations of the source. *)
Theorem batch_pricing_formulas (product : A) (q b : Z) :
  (0 <= q <= MAX_SAFE_INTEGER)%Z ->
  (0 < b <= MAX_SAFE_INTEGER)%Z ->
  specialOffer product <> None ->
  batchSize product = of_Z b ->
  (offerPricePerUnit product >? Num.zero) = true ->
  let r := calculateOfferPricing product (of_Z q) (Some "bulk") in
  let offerTotal := of_Z (q / b * b) * offerPricePerUnit product in
  let regularTotal := of_Z (q mod b) * regularPrice product in
  fullBatches (of_Z q) (batchSize product) = of_Z (q / b)
  /\ remainingItems (of_Z q) (batchSize product) = of_Z (q mod b)
  /\ itemsAtOfferPrice r = of_Z (q / b * b)
  /\ itemsAtRegularPrice r = of_Z (q mod b)
  /\ total r = offerTotal + regularTotal
  /\ subtotal r = of_Z q * regularPrice product
  /\ discount r = subtotal r - total r.
Proof.
  intros [Hq _] [Hb _] Hso Hsize Hprice r offerTotal regularTotal.
  assert (E : regularOnly product "bulk" = false).
  { apply regularOnly_false_iff. repeat split.
    - exact Hso.
    - rewrite Hsize. intros N. apply of_Z_inj in N. lia.
    - apply truthy_offerPricePerUnit, gt_zero_truthy, Hprice.
    - discriminate. }
  subst r offerTotal regularTotal.
  unfold calculateOfferPricing. cbv zeta.
  change (offerTypeOrDefault (Some "bulk")) with "bulk". rewrite E.
  unfold batchPricing. cbv zeta.
  cbn [itemsAtOfferPrice itemsAtRegularPrice total subtotal discount].
  rewrite Hsize, fullBatches_of_Z, remainingItems_of_Z, of_Z_mul by lia.
  repeat split; reflexivity.
Qed.

(** C3, as amended.  For a quantity [q] that is a whole number from 0 to
    [2^53 - 1], every offer type and every product whose batch size is a
    whole number from 0 to [2^53 - 1] (a missing one counting as 0), the
    units at the offer price and the units at the regular price add up to
    [q]; and when batch pricing applies, the batch size [b] is positive
    and the units at the offer price are a multiple of [b]. *)
Theorem units_add_up_to_quantity
    (product : A) (q b : Z) (offerType : option string) :
  (0 <= q <= MAX_SAFE_INTEGER)%Z ->
  batchSize product = of_Z b ->
  (0 <= b <= MAX_SAFE_INTEGER)%Z ->
  let r := calculateOfferPricing product (of_Z q) offerType in
  itemsAtOfferPrice r + itemsAtRegularPrice r = of_Z q
  /\ (regularOnly product (offerTypeOrDefault offerType) = false ->
      (0 < b)%Z /\ itemsAtOfferPrice r mod of_Z b = Num.zero).
Proof.
  intros [Hq _] Hsize [Hb _] r. subst r.
  unfold calculateOfferPricing. cbv zeta.
  destruct (regularOnly product (offerTypeOrDefault offerType)) eqn:E.
  - split; [|discriminate]. apply add_zero_l.
  - apply regularOnly_false_iff in E. destruct E as (_ & Hnz & _).
    rewrite Hsize in Hnz.
    assert (Hpos : (0 < b)%Z).
    { destruct (Z.eq_dec b 0) as [-> | N]; [|lia].
      exfalso. apply Hnz. reflexivity. }
    unfold batchPricing. cbv zeta.
    cbn [itemsAtOfferPrice itemsAtRegularPrice]. rewrite Hsize.
    split.
    + apply batches_and_remainder.
      * change 0%Qc with (Zc 0). apply Zc_le. exact Hq.
      * change 0%Qc with (Zc 0). apply Zc_lt. exact Hpos.
    + intros _. split; [exact Hpos|]. apply full_batches_multiple.
      intros N. apply (Zc_inj b 0) in N. lia.
Qed.

End Batches.

(** ** The scenarios of the specification *)

Section Scenarios.

Local Open Scope num_scope.

(** C1 fails as stated: with a batch size of -3 the rule of the
    specification does not hold, and yet the batches are priced. *)
Lemma negative_batch_size_is_priced_in_batches :
  spec_eligible ex_negative_batch "bulk" = false
  /\ regularOnly ex_negative_batch "bulk" = false
  /\ breakdown (calculateOfferPricing ex_negative_batch (of_Z 7) (Some "bulk"))
     <> []
  /\ total (calculateOfferPricing ex_negative_batch (of_Z 7) (Some "bulk"))
     <> regularPrice ex_negative_batch * of_Z 7.
Proof.
  conjuncts.
  - vm_compute. reflexivity.
  - vm_compute. reflexivity.
  - vm_compute. discriminate.
  - number_neq.
Qed.

(** C3 fails as stated: with a batch size of -3 and a quantity of 7, nine
    units are at the offer price and one at the regular price. *)
Lemma negative_batch_size_units_exceed_quantity :
  let r := calculateOfferPricing ex_negative_batch (of_Z 7) (Some "bulk") in
  itemsAtOfferPrice r = of_Z 9
  /\ itemsAtRegularPrice r = of_Z 1
  /\ itemsAtOfferPrice r + itemsAtRegularPrice r <> of_Z 7.
Proof.
  conjuncts.
  - number_eq.
  - number_eq.
  - number_neq.
Qed.

(** C5 fails as stated: the offer total is 6 units at 250, which is 1500
    and not 500, so the total is not 600 and the discount is not 100. *)
Lemma scenario_offer_total_is_not_500 :
  let r := calculateOfferPricing ex_product (of_Z 7) (Some "bulk") in
  itemsAtOfferPrice r * offerPricePerUnit ex_product <> of_Z 500
  /\ total r <> of_Z 600
  /\ discount r <> of_Z 100.
Proof.
  conjuncts; number_neq.
Qed.

(** C5, as amended.  For a price of 100, a special offer of 3 units at
    250 a unit, a quantity of 7 and the offer type ["bulk"]: two full
    batches and a remainder of 1, so 6 units at the offer price and 1 at
    the regular price; the offer total is 1500, the regular total 100, the
    total 1600, the subtotal 700 and the discount -900. *)
Theorem scenario_seven_units_in_batches_of_three :
  let r := calculateOfferPricing ex_product (of_Z 7) (Some "bulk") in
  fullBatches (of_Z 7) (batchSize ex_product) = of_Z 2
  /\ remainingItems (of_Z 7) (batchSize ex_product) = of_Z 1
  /\ itemsAtOfferPrice r = of_Z 6
  /\ itemsAtRegularPrice r = of_Z 1
  /\ breakdown r
     = [ {| entry_type := "offer"; entry_quantity := of_Z 6;
            entry_pricePerUnit := of_Z 250; entry_total := of_Z 1500 |};
         {| entry_type := "regular"; entry_quantity := of_Z 1;
            entry_pricePerUnit := of_Z 100; entry_total := of_Z 100 |} ]
  /\ total r = of_Z 1600
  /\ subtotal r = of_Z 700
  /\ discount r = of_Z (-900).
Proof.
  conjuncts; try number_eq. breakdown_eq.
Qed.

(** C2 fails as stated: the quantity [2^54] and the batch size 5 are whole
    numbers and doubles, and the quotient of the source is rounded before
    [Math.floor] sees it: the full batches are 3602879701896397, one more
    than [floor (2^54 / 5)], the units at the offer price are [2^54] and
    not a multiple of 5, and with the remainder 4 they are more than the
    quantity. *)
Lemma full_batches_beyond_safe_integers :
  let q := (2 ^ 54)%Z in
  let product := Double.whole_product 100 5 80 in
  let r := Double.calculateOfferPricing product (Double.of_Z q) (Some "bulk") in
  Double.regularOnly product "bulk" = false
  /\ Double.to_Z (Double.of_Z q) = Some q
  /\ Double.to_Z (Double.batchSize product) = Some 5%Z
  /\ Double.to_Z (Double.fullBatches (Double.of_Z q) (Double.batchSize product))
     = Some 3602879701896397%Z
  /\ (q / 5)%Z = 3602879701896396%Z
  /\ Double.to_Z (Double.itemsAtOfferPrice r) = Some q
  /\ (q / 5 * 5)%Z = (q - 4)%Z
  /\ Double.to_Z (Double.itemsAtRegularPrice r) = Some 4%Z
  /\ Double.to_Z
       (PrimFloat.add (Double.itemsAtOfferPrice r) (Double.itemsAtRegularPrice r))
     = Some (q + 4)%Z.
Proof.
  conjuncts; vm_compute; reflexivity.
Qed.


(** Beyond [MAX_SAFE_INTEGER] the label need not hold the digits of the
    rounded discount.  The discount [2^60] is a whole number, its own
    rounding to the nearest integer, and it is printed with the fewest
    digits that tell it from its neighbours: 1152921504606847000. *)
Lemma large_discount_label_digits :
  Num.round (of_Z (2 ^ 60)) = of_Z (2 ^ 60)
  /\ Print.numeral (2 ^ 60) = "1152921504606846976"
  /\ formatDiscount (of_Z (2 ^ 60)) = "₹1152921504606847000 सूट"
  /\ formatDiscount (of_Z (2 ^ 60)) <> "₹" ++ Print.numeral (2 ^ 60) ++ " सूट".
Proof.
  conjuncts.
  - number_eq.
  - vm_compute. reflexivity.
  - vm_compute. reflexivity.
  - intros N. vm_compute in N. discriminate N.
Qed.

(** C10 fails as stated: an offer type that is left out or is [undefined]
    is not the string ["regular"], and the line is priced flat, for the
    parameter takes its default: no unit is at the offer price and the
    breakdown is empty, where the offer type ["bulk"] has six units at the
    offer price. *)
Lemma omitted_offer_type_is_priced_flat :
  let r := calculateOfferPricing ex_product (of_Z 7) None in
  specialOffer ex_product <> None
  /\ (batchSize ex_product >? Num.zero) = true
  /\ (offerPricePerUnit ex_product >? Num.zero) = true
  /\ itemsAtOfferPrice r = Num.zero
  /\ itemsAtRegularPrice r = of_Z 7
  /\ total r = of_Z 700
  /\ breakdown r = []
  /\ itemsAtOfferPrice (calculateOfferPricing ex_product (of_Z 7) (Some "bulk"))
     = of_Z 6.
Proof.
  conjuncts; try number_eq.
  - discriminate.
  - vm_compute. reflexivity.
  - vm_compute. reflexivity.
  - reflexivity.
Qed.

End Scenarios.

(** ** The breakdown *)

Section Breakdown.

Context {A : Type} `{ProductLike A}.

Local Open Scope num_scope.

(** C7.  The breakdown has at most two entries, each with a type, a
    quantity, a price per unit and a total; an entry is there only for a
    quantity above 0, so none has the quantity 0, and no entry stands for
    a count of units that is 0; an offer entry comes before a regular
    entry when both are there. *)
Theorem breakdown_offer_then_regular
    (product : A) (quantity : number) (offerType : option string) :
  let r := calculateOfferPricing product quantity offerType in
  (List.length (breakdown r) <= 2)%nat
  /\ (forall e, In e (breakdown r) ->
      (entry_quantity e >? Num.zero) = true /\ entry_quantity e <> Num.zero)
  /\ (forall e, In e (breakdown r) ->
      (entry_type e = "offer"
       /\ entry_quantity e = itemsAtOfferPrice r
       /\ entry_pricePerUnit e = offerPricePerUnit product
       /\ entry_total e = itemsAtOfferPrice r * offerPricePerUnit product)
      \/ (entry_type e = "regular"
          /\ entry_quantity e = itemsAtRegularPrice r
          /\ entry_pricePerUnit e = regularPrice product
          /\ entry_total e = itemsAtRegularPrice r * regularPrice product))
  /\ (breakdown r = []
      \/ (exists o, breakdown r = [o] /\ entry_type o = "offer")
      \/ (exists g, breakdown r = [g] /\ entry_type g = "regular")
      \/ (exists o g, breakdown r = [o; g]
                      /\ entry_type o = "offer" /\ entry_type g = "regular")).
Proof.
  intros r. subst r. unfold calculateOfferPricing. cbv zeta.
  destruct (regularOnly product (offerTypeOrDefault offerType)).
  - simpl. repeat split; try (intros e []); auto.
  - unfold batchPricing. cbv zeta.
    cbn [breakdown itemsAtOfferPrice itemsAtRegularPrice].
    set (batches := fullBatches quantity (batchSize product) * batchSize product).
    set (rest := remainingItems quantity (batchSize product)).
    destruct (batches >? Num.zero) eqn:Eo; destruct (rest >? Num.zero) eqn:Er;
      cbn [app List.length In]; (split; [lia|]); (split; [|split]).
    all: try (intros e He;
              repeat (destruct He as [<- | He]; [cbn; auto using gt_zero_neq|]);
              destruct He).
    + right. right. right. eexists _, _. repeat split.
    + right. left. eexists. repeat split.
    + right. right. left. eexists. repeat split.
    + left. reflexivity.
Qed.

End Breakdown.

(** ** The cart *)

Section Cart.

Local Open Scope num_scope.

Lemma Array_map_priceItem (cartItems : list CartItem) (st : Totals) :
  Array_map priceItem cartItems st
  = (map priced cartItems,
     {| totalSubtotal :=
          fold_left Num.add (map (fun i => subtotal (pricing (priced i))) cartItems)
            (totalSubtotal st);
        totalDiscount :=
          fold_left Num.add (map (fun i => discount (pricing (priced i))) cartItems)
            (totalDiscount st);
        totalAmount :=
          fold_left Num.add (map (fun i => total (pricing (priced i))) cartItems)
            (totalAmount st) |}).
Proof.
  revert st. induction cartItems as [|item items IH]; intros st.
  - destruct st. reflexivity.
  - cbn [Array_map]. unfold priceItem at 1. cbv zeta.
    rewrite IH. reflexivity.
Qed.

(** A running total from [a] is [a] plus the sum. *)
Lemma fold_left_add (xs : list number) (a : number) :
  fold_left Num.add xs a = a + sum xs.
Proof.
  revert a. induction xs as [|x xs IH]; intros a; simpl.
  - symmetry. apply add_zero_r.
  - rewrite IH. symmetry. apply add_assoc.
Qed.

Lemma running_total_from_zero (xs : list number) :
  fold_left Num.add xs Num.zero = sum xs.
Proof. rewrite fold_left_add. apply add_zero_l. Qed.


(** C4.  The subtotal, the discount and the total of the cart are the sums
    of the subtotals, the discounts and the totals of the pricings of its
    items: of the pricing of each item given, which is what the items of
    the result hold; and a cart with the same items in another order has
    the same three totals.  The sums are exact. *)
Theorem cart_totals_are_sums (cartItems : list CartItem) :
  let c := calculateCartTotal cartItems in
  let line := fun item : CartItem =>
    calculateOfferPricing item (item_quantity item) (item_offerType item) in
  let results := map pricing (cart_items c) in
  results = map line cartItems
  /\ cart_subtotal c = sum (map (fun item => subtotal (line item)) cartItems)
  /\ cart_discount c = sum (map (fun item => discount (line item)) cartItems)
  /\ cart_total c = sum (map (fun item => total (line item)) cartItems)
  /\ cart_subtotal c = sum (map subtotal results)
  /\ cart_discount c = sum (map discount results)
  /\ cart_total c = sum (map total results)
  /\ (forall reordered : list CartItem,
        Permutation cartItems reordered ->
        cart_subtotal (calculateCartTotal reordered) = cart_subtotal c
        /\ cart_discount (calculateCartTotal reordered) = cart_discount c
        /\ cart_total (calculateCartTotal reordered) = cart_total c).
Proof.
  assert (T : forall items,
             let c := calculateCartTotal items in
             cart_items c = map priced items
             /\ cart_subtotal c = sum (map (fun i => subtotal (pricing (priced i))) items)
             /\ cart_discount c = sum (map (fun i => discount (pricing (priced i))) items)
             /\ cart_total c = sum (map (fun i => total (pricing (priced i))) items)).
  { intros items c. subst c. unfold calculateCartTotal. cbv zeta.
    rewrite Array_map_priceItem.
    cbn [cart_items cart_subtotal cart_discount cart_total
         totalSubtotal totalDiscount totalAmount].
    rewrite !running_total_from_zero. auto. }
  intros c line results. subst c line results.
  destruct (T cartItems) as (Ei & Es & Ed & Et).
  rewrite Ei, !map_map.
  split; [reflexivity|].
  split; [exact Es|]. split; [exact Ed|]. split; [exact Et|].
  split; [exact Es|]. split; [exact Ed|]. split; [exact Et|].
  intros reordered P.
  destruct (T reordered) as (_ & Es' & Ed' & Et').
  rewrite Es, Ed, Et, Es', Ed', Et'.
  repeat split; apply sum_Permutation, Permutation_map, Permutation_sym, P.
Qed.

End Cart.

(** ** The discount label *)

Section DiscountLabel.

Local Open Scope num_scope.

Lemma le_not_gt (a b : number) : (a <=? b) = true -> (a >? b) = false.
Proof.
  destruct a, b; simpl; try congruence.
  apply negb_true_iff.
Qed.

(** [Math.round] of a rational is the nearest integer, a tie going up. *)
Lemma round_nearest (x : Qc) :
  let n := Qfloor (x + half)%Qc in
  (Zc n - half <= x)%Qc /\ (x < Zc n + half)%Qc.
Proof.
  intros n. split.
  - apply <- Qcle_minus_iff.
    replace (x + - (Zc n - half))%Qc with ((x + half) + - Zc n)%Qc by ring.
    apply -> Qcle_minus_iff. unfold Qcle. rewrite this_Zc. apply Qfloor_le.
  - apply <- Qclt_minus_iff.
    replace (Zc n + half + - x)%Qc with (Zc (n + 1) + - (x + half))%Qc.
    + apply -> Qclt_minus_iff. unfold Qclt. rewrite this_Zc. apply Qlt_floor.
    + rewrite Zc_add.
      replace (Zc 1) with (half + half)%Qc by (apply Qc_is_canon; reflexivity).
      ring.
Qed.

Lemma round_positive (x : Qc) : (0 < x)%Qc -> (0 <= Qfloor (x + half)%Qc)%Z.
Proof.
  intros Hx. change 0%Z with (Qfloor 0%Qc). apply Qfloor_resp_le.
  change (0 + 0 <= x + half)%Qc. apply Qcplus_le_compat.
  - apply Qclt_le_weak. exact Hx.
  - discriminate.
Qed.

(** Up to [2^53 - 1] a whole number is written with its own digits. *)
Lemma integer_within_safe (n : Z) :
  (0 <= n <= MAX_SAFE_INTEGER)%Z -> Print.integer n = Print.numeral n.
Proof.
  unfold MAX_SAFE_INTEGER. intros [Hlo Hhi].
  unfold Print.integer, Print.written, Print.shortest.
  assert (E1 : (n <? 0)%Z = false) by (apply Z.ltb_ge; exact Hlo).
  assert (E2 : (n <=? 2 ^ 53)%Z = true).
  { apply Z.leb_le. change (2 ^ 53)%Z with 9007199254740992%Z. lia. }
  assert (E3 : (Z.abs n <? 10 ^ 21)%Z = true).
  { apply Z.ltb_lt. change (10 ^ 21)%Z with 1000000000000000000000%Z. lia. }
  rewrite E1, E2. cbv zeta. rewrite E3. reflexivity.
Qed.

(** C8.  The label of a discount that is 0 or below is the
    empty string, so it is for 0 and for -5.  The label of a discount
    above 0 is the currency sign, the discount rounded to the nearest
    integer as a number is printed, and the word for discount after a
    space; up to [2^53 - 1] what is printed is the decimal digits of that
    integer.  For 99.6 the integer is 100. *)
Theorem formatDiscount_label (discount : number) :
  ((discount <=? Num.zero) = true -> formatDiscount discount = "")
  /\ ((discount >? Num.zero) = true ->
      formatDiscount discount
      = "₹" ++ Number_toString (Num.round discount) ++ " सूट")
  /\ (forall x : Qc,
        discount = Fin x -> (0 < x)%Qc ->
        exists n : Z,
          (Zc n - half <= x)%Qc /\ (x < Zc n + half)%Qc
          /\ Num.round discount = of_Z n
          /\ formatDiscount discount = "₹" ++ Print.integer n ++ " सूट"
          /\ ((n <= MAX_SAFE_INTEGER)%Z ->
              formatDiscount discount = "₹" ++ Print.numeral n ++ " सूट"))
  /\ formatDiscount (of_Z 0) = ""
  /\ formatDiscount (of_Z (-5)) = ""
  /\ formatDiscount (Fin (Q2Qc (996 # 10))) = "₹100 सूट".
Proof.
  conjuncts; try reflexivity.
  - intros L. unfold formatDiscount. rewrite (le_not_gt _ _ L). reflexivity.
  - intros G. unfold formatDiscount. rewrite G. reflexivity.
  - intros x -> Hx. exists (Qfloor (x + half)%Qc).
    destruct (round_nearest x) as [Hlo Hhi].
    assert (Hlabel : formatDiscount (Fin x)
                     = "₹" ++ Print.integer (Qfloor (x + half)%Qc) ++ " सूट").
    { unfold formatDiscount.
      assert (G : (Fin x >? Num.zero) = true) by (apply Qc_ltb_lt; exact Hx).
      rewrite G. cbn [Num.round Number_toString of_Z].
      rewrite Qfloor_Zc. reflexivity. }
    split; [exact Hlo|]. split; [exact Hhi|]. split; [reflexivity|].
    split; [exact Hlabel|].
    intros Hn. rewrite Hlabel, integer_within_safe; [reflexivity|].
    split; [apply round_positive; exact Hx | exact Hn].
Qed.

End DiscountLabel.

(** ** The theorems at concrete inputs *)

Section Instances.

Local Open Scope num_scope.

(** Seven units of the example product, bought in bulk, are priced in
    batches. *)
Lemma flat_unless_nonzero_bulk_offer_at_example :
  ("bulk" = "regular" \/ "bulk" = "bulk")
  /\ calculateOfferPricing ex_product (of_Z 7) (Some "bulk")
     = batchPricing (regularPrice ex_product) (batchSize ex_product)
         (offerPricePerUnit ex_product) (of_Z 7).
Proof.
  split; [right; reflexivity|].
  destruct (flat_unless_nonzero_bulk_offer ex_product (of_Z 7) "bulk"
              (or_intror eq_refl)) as (_ & Happlies & _).
  apply Happlies. conjuncts.
  - discriminate.
  - number_neq.
  - number_neq.
  - reflexivity.
Defined.

Lemma batch_pricing_formulas_at_example :
  ((0 <= 7 <= MAX_SAFE_INTEGER)%Z /\ (0 < 3 <= MAX_SAFE_INTEGER)%Z
   /\ specialOffer ex_product <> None
   /\ batchSize ex_product = of_Z 3
   /\ (offerPricePerUnit ex_product >? Num.zero) = true)
  /\ (let r := calculateOfferPricing ex_product (of_Z 7) (Some "bulk") in
      fullBatches (of_Z 7) (batchSize ex_product) = of_Z (7 / 3)
      /\ remainingItems (of_Z 7) (batchSize ex_product) = of_Z (7 mod 3)
      /\ itemsAtOfferPrice r = of_Z (7 / 3 * 3)
      /\ itemsAtRegularPrice r = of_Z (7 mod 3)
      /\ total r = of_Z (7 / 3 * 3) * offerPricePerUnit ex_product
                   + of_Z (7 mod 3) * regularPrice ex_product
      /\ subtotal r = of_Z 7 * regularPrice ex_product
      /\ discount r = subtotal r - total r).
Proof.
  assert (Hq : (0 <= 7 <= MAX_SAFE_INTEGER)%Z) by (unfold MAX_SAFE_INTEGER; lia).
  assert (Hb : (0 < 3 <= MAX_SAFE_INTEGER)%Z) by (unfold MAX_SAFE_INTEGER; lia).
  assert (Hso : specialOffer ex_product <> None) by discriminate.
  assert (Hsize : batchSize ex_product = of_Z 3) by number_eq.
  assert (Hprice : (offerPricePerUnit ex_product >? Num.zero) = true)
    by (vm_compute; reflexivity).
  split.
  - auto.
  - exact (batch_pricing_formulas ex_product 7 3 Hq Hb Hso Hsize Hprice).
Defined.

Lemma units_add_up_to_quantity_at_example :
  ((0 <= 7 <= MAX_SAFE_INTEGER)%Z
   /\ batchSize ex_product = of_Z 3
   /\ (0 <= 3 <= MAX_SAFE_INTEGER)%Z)
  /\ (let r := calculateOfferPricing ex_product (of_Z 7) (Some "bulk") in
      itemsAtOfferPrice r + itemsAtRegularPrice r = of_Z 7
      /\ (regularOnly ex_product "bulk" = false ->
          (0 < 3)%Z /\ itemsAtOfferPrice r mod of_Z 3 = Num.zero)).
Proof.
  assert (Hq : (0 <= 7 <= MAX_SAFE_INTEGER)%Z) by (unfold MAX_SAFE_INTEGER; lia).
  assert (Hsize : batchSize ex_product = of_Z 3) by number_eq.
  assert (Hb : (0 <= 3 <= MAX_SAFE_INTEGER)%Z) by (unfold MAX_SAFE_INTEGER; lia).
  split.
  - auto.
  - exact (units_add_up_to_quantity ex_product 7 3 (Some "bulk") Hq Hsize Hb).
Defined.

Lemma cart_totals_are_sums_at_example :
  Permutation [ex_item_bulk; ex_item_plain] [ex_item_plain; ex_item_bulk]
  /\ cart_total (calculateCartTotal [ex_item_plain; ex_item_bulk])
     = cart_total (calculateCartTotal [ex_item_bulk; ex_item_plain]).
Proof.
  assert (P : Permutation [ex_item_bulk; ex_item_plain] [ex_item_plain; ex_item_bulk])
    by apply perm_swap.
  split; [exact P|].
  destruct (cart_totals_are_sums [ex_item_bulk; ex_item_plain])
    as (_ & _ & _ & _ & _ & _ & _ & Hperm).
  destruct (Hperm _ P) as (_ & _ & Htotal). exact Htotal.
Defined.


Lemma breakdown_offer_then_regular_at_example :
  let r := calculateOfferPricing ex_product (of_Z 7) (Some "bulk") in
  let e := {| entry_type := "offer"; entry_quantity := of_Z 6;
              entry_pricePerUnit := of_Z 250; entry_total := of_Z 1500 |} in
  In e (breakdown r)
  /\ (entry_quantity e >? Num.zero) = true /\ entry_quantity e <> Num.zero.
Proof.
  intros r e.
  assert (Hin : In e (breakdown r)).
  { assert (E : breakdown r
                = [ e;
                    {| entry_type := "regular"; entry_quantity := of_Z 1;
                       entry_pricePerUnit := of_Z 100;
                       entry_total := of_Z 100 |} ]) by breakdown_eq.
    rewrite E. left. reflexivity. }
  split; [exact Hin|].
  destruct (breakdown_offer_then_regular ex_product (of_Z 7) (Some "bulk"))
    as (_ & Hpos & _).
  exact (Hpos e Hin).
Defined.

Lemma formatDiscount_label_at_example :
  (0 < Q2Qc (996 # 10))%Qc
  /\ exists n : Z,
       (Zc n - half <= Q2Qc (996 # 10))%Qc
       /\ (Q2Qc (996 # 10) < Zc n + half)%Qc
       /\ Num.round (Fin (Q2Qc (996 # 10))) = of_Z n
       /\ formatDiscount (Fin (Q2Qc (996 # 10))) = "₹" ++ Print.integer n ++ " सूट"
       /\ ((n <= MAX_SAFE_INTEGER)%Z ->
           formatDiscount (Fin (Q2Qc (996 # 10)))
           = "₹" ++ Print.numeral n ++ " सूट").
Proof.
  assert (Hpos : (0 < Q2Qc (996 # 10))%Qc) by reflexivity.
  split; [exact Hpos|].
  destruct (formatDiscount_label (Fin (Q2Qc (996 # 10))))
    as (_ & _ & Hfinite & _).
  exact (Hfinite _ eq_refl Hpos).
Defined.

Lemma effectivePricePerUnit_by_branch_at_example :
  regularOnly ex_product "bulk" = false
  /\ effectivePricePerUnit
       (calculateOfferPricing ex_product Num.zero (Some "bulk")) = NaN.
Proof.
  assert (E : regularOnly ex_product "bulk" = false) by (vm_compute; reflexivity).
  split; [exact E|].
  destruct (effectivePricePerUnit_by_branch ex_product Num.zero (Some "bulk"))
    as (_ & _ & Hzero).
  destruct (Hzero E eq_refl) as (_ & Hnan & _). exact Hnan.
Defined.

Lemma batch_pricing_for_any_type_but_regular_at_example :
  (specialOffer ex_product <> None
   /\ (batchSize ex_product >? Num.zero) = true
   /\ (offerPricePerUnit ex_product >? Num.zero) = true
   /\ "wholesale" <> "regular")
  /\ (let r := calculateOfferPricing ex_product (of_Z 7) (Some "wholesale") in
      itemsAtOfferPrice r <> Num.zero
      /\ exists others,
           breakdown r
           = {| entry_type := "offer";
                entry_quantity :=
                  Num.floor (of_Z 7 / batchSize ex_product)
                  * batchSize ex_product;
                entry_pricePerUnit := offerPricePerUnit ex_product;
                entry_total :=
                  Num.floor (of_Z 7 / batchSize ex_product)
                  * batchSize ex_product * offerPricePerUnit ex_product |}
             :: others).
Proof.
  assert (Hso : specialOffer ex_product <> None) by discriminate.
  assert (Hb : (batchSize ex_product >? Num.zero) = true) by (vm_compute; reflexivity).
  assert (Hp : (offerPricePerUnit ex_product >? Num.zero) = true)
    by (vm_compute; reflexivity).
  assert (Ht : "wholesale" <> "regular") by discriminate.
  split.
  - auto.
  - destruct (batch_pricing_for_any_type_but_regular ex_product (of_Z 7)
                "wholesale" Hso Hb Hp Ht) as (_ & _ & Hbatch).
    apply Hbatch. vm_compute. reflexivity.
Defined.

End Instances.

(** * Further properties *)

(** ** Comparisons of finite numbers *)

Section Comparisons.

Local Open Scope num_scope.

Lemma le_Fin (x y : Qc) : (Fin x <=? Fin y) = true <-> (x <= y)%Qc.
Proof. simpl. rewrite negb_true_iff. apply Qc_ltb_ge. Qed.

Lemma gt_Fin (x y : Qc) : (Fin x >? Fin y) = true <-> (y < x)%Qc.
Proof. simpl. apply Qc_ltb_lt. Qed.

Lemma gt_of_Z (k : Z) : (of_Z k >? Num.zero) = (0 <? k)%Z.
Proof.
  destruct (Z.ltb_spec 0 k) as [L | L].
  - apply gt_Fin. apply Zc_lt. exact L.
  - unfold of_Z, Num.zero, of_Z. simpl. apply Qc_ltb_ge. apply Zc_le. exact L.
Qed.

Lemma Zc_nonneg (k : Z) : (0 <= k)%Z -> (0 <= Zc k)%Qc.
Proof. intros L. change 0%Qc with (Zc 0). apply Zc_le. exact L. Qed.

Lemma Zc_pos (k : Z) : (0 < k)%Z -> (0 < Zc k)%Qc.
Proof. intros L. change 0%Qc with (Zc 0). apply Zc_lt. exact L. Qed.

Lemma Qc_le_by_difference (x y : Qc) : (0 <= y - x)%Qc -> (x <= y)%Qc.
Proof. intros L. apply <- Qcle_minus_iff. exact L. Qed.

Lemma Qc_lt_by_difference (x y : Qc) : (0 < y - x)%Qc -> (x < y)%Qc.
Proof. intros L. apply <- Qclt_minus_iff. exact L. Qed.

Lemma Qc_difference_nonneg (x y : Qc) : (x <= y)%Qc -> (0 <= y - x)%Qc.
Proof. intros L. apply -> Qcle_minus_iff. exact L. Qed.

Lemma Qc_difference_pos (x y : Qc) : (x < y)%Qc -> (0 < y - x)%Qc.
Proof. intros L. apply -> Qclt_minus_iff. exact L. Qed.

Lemma Qc_mul_nonneg (x y : Qc) : (0 <= x)%Qc -> (0 <= y)%Qc -> (0 <= x * y)%Qc.
Proof.
  intros Hx Hy. replace 0%Qc with (0 * y)%Qc by ring.
  apply Qcmult_le_compat_r; assumption.
Qed.

Lemma Qc_mul_pos (x y : Qc) : (0 < x)%Qc -> (0 < y)%Qc -> (0 < x * y)%Qc.
Proof.
  intros Hx Hy. replace 0%Qc with (0 * y)%Qc by ring.
  apply Qcmult_lt_compat_r; assumption.
Qed.

End Comparisons.

(** ** The batch branch on whole numbers *)

Section WholeBatches.

Context {A : Type} `{ProductLike A}.

Local Open Scope num_scope.

Lemma whole_batch_branch
    (product : A) (offerType : option string) (b : Z) (p u : Qc)
    (quantity : number) :
  whole_batch_offer product offerType b p u ->
  calculateOfferPricing product quantity offerType
  = batchPricing (Fin p) (of_Z b) (Fin u) quantity.
Proof.
  intros (Hbranch & Hsize & _ & Hp & Hu).
  unfold calculateOfferPricing. cbv zeta.
  rewrite Hbranch, Hsize, Hp, Hu. reflexivity.
Qed.

(** The result of the batch branch for [q] units in batches of [b]. *)
Lemma batchPricing_whole (p u : Qc) (q b : Z) :
  (0 <= q)%Z -> (0 < b)%Z ->
  batchPricing (Fin p) (of_Z b) (Fin u) (of_Z q)
  = {| subtotal := Fin (Zc q * p);
       discount :=
         Fin (Zc q * p - (Zc (q / b * b) * u + Zc (q mod b) * p));
       total := Fin (Zc (q / b * b) * u + Zc (q mod b) * p);
       itemsAtOfferPrice := of_Z (q / b * b);
       itemsAtRegularPrice := of_Z (q mod b);
       effectivePricePerUnit :=
         Fin (Zc (q / b * b) * u + Zc (q mod b) * p) / of_Z q;
       breakdown :=
         (if (0 <? q / b * b)%Z
          then [offerEntry (of_Z (q / b * b)) (Fin u)] else [])
         ++ (if (0 <? q mod b)%Z
             then [regularEntry (of_Z (q mod b)) (Fin p)] else []) |}.
Proof.
  intros Hq Hb. unfold batchPricing. cbv zeta.
  rewrite fullBatches_of_Z, remainingItems_of_Z, of_Z_mul, !gt_of_Z by lia.
  reflexivity.
Qed.

Lemma whole_batch_pricing
    (product : A) (offerType : option string) (q b : Z) (p u : Qc) :
  whole_batch_offer product offerType b p u ->
  (0 <= q)%Z ->
  calculateOfferPricing product (of_Z q) offerType
  = {| subtotal := Fin (Zc q * p);
       discount :=
         Fin (Zc q * p - (Zc (q / b * b) * u + Zc (q mod b) * p));
       total := Fin (Zc (q / b * b) * u + Zc (q mod b) * p);
       itemsAtOfferPrice := of_Z (q / b * b);
       itemsAtRegularPrice := of_Z (q mod b);
       effectivePricePerUnit :=
         Fin (Zc (q / b * b) * u + Zc (q mod b) * p) / of_Z q;
       breakdown :=
         (if (0 <? q / b * b)%Z
          then [offerEntry (of_Z (q / b * b)) (Fin u)] else [])
         ++ (if (0 <? q mod b)%Z
             then [regularEntry (of_Z (q mod b)) (Fin p)] else []) |}.
Proof.
  intros Hoffer Hq. rewrite (whole_batch_branch _ _ _ _ _ _ Hoffer).
  apply batchPricing_whole; [exact Hq|]. apply Hoffer.
Qed.

(** The quantity is the units in full batches plus the remainder. *)
Lemma Zc_split (q b : Z) :
  (0 < b)%Z -> Zc q = (Zc (q / b * b) + Zc (q mod b))%Qc.
Proof.
  intros Hb. rewrite <- Zc_add. f_equal.
  rewrite Z.mul_comm. apply Z.div_mod. lia.
Qed.

End WholeBatches.

Section WholeBatchProperties.

Context {A : Type} `{ProductLike A}.

Variables (product : A) (offerType : option string).

Local Open Scope num_scope.

(** A line in whole numbers is a line of the batch branch. *)
Lemma safe_whole_line_offer (q b p u : Z) :
  safe_whole_line product offerType q b p u ->
  whole_batch_offer product offerType b (Zc p) (Zc u) /\ (0 <= q)%Z.
Proof.
  intros (Hbranch & Hsize & [Hb _] & Hp & _ & Hu & _ & Hq & _).
  split; [|exact Hq]. unfold whole_batch_offer. auto.
Qed.

(** X1.  For a line in whole numbers within [MAX_SAFE_INTEGER], the
    discount is the number of units at the offer price times what a unit
    saves, regular price minus offer price.  So it is not negative, and
    the total is at most the subtotal, when the offer price is at most the
    regular price; and it is negative as soon as the offer price is above
    the regular price and the quantity holds a full batch. *)
Theorem discount_is_units_times_saving (q b p u : Z) :
  safe_whole_line product offerType q b p u ->
  let r := calculateOfferPricing product (of_Z q) offerType in
  discount r
  = itemsAtOfferPrice r * (regularPrice product - offerPricePerUnit product)
  /\ ((u <= p)%Z ->
      (Num.zero <=? discount r) = true /\ (total r <=? subtotal r) = true)
  /\ ((p < u)%Z -> (b <= q)%Z -> (Num.zero >? discount r) = true).
Proof.
  intros Hsafe r. subst r.
  destruct (safe_whole_line_offer q b p u Hsafe) as [Hoffer Hq].
  rewrite (whole_batch_pricing _ _ q b (Zc p) (Zc u) Hoffer Hq).
  destruct Hoffer as (_ & _ & Hb & -> & ->).
  cbn [discount itemsAtOfferPrice total subtotal].
  assert (Hd : (Zc q * Zc p - (Zc (q / b * b) * Zc u + Zc (q mod b) * Zc p)
                = Zc (q / b * b) * (Zc p - Zc u))%Qc).
  { rewrite (Zc_split q b Hb) at 1. ring. }
  assert (Hunits : (0 <= q / b * b)%Z).
  { apply Z.mul_nonneg_nonneg; [apply Z.div_pos|]; lia. }
  rewrite Hd. split; [reflexivity|]. split.
  - intros Hup. apply Zc_le in Hup. split.
    + apply le_Fin. apply Qc_mul_nonneg.
      * apply Zc_nonneg. exact Hunits.
      * apply Qc_difference_nonneg. exact Hup.
    + apply le_Fin. apply Qc_le_by_difference.
      rewrite Hd. apply Qc_mul_nonneg.
      * apply Zc_nonneg. exact Hunits.
      * apply Qc_difference_nonneg. exact Hup.
  - intros Hpu Hbq. apply Zc_lt in Hpu.
    apply gt_Fin. apply Qc_lt_by_difference.
    change (Zc 0) with 0%Qc.
    replace (0 - Zc (q / b * b) * (Zc p - Zc u))%Qc
      with (Zc (q / b * b) * (Zc u - Zc p))%Qc by ring.
    apply Qc_mul_pos.
    + apply Zc_pos.
      assert (1 <= q / b)%Z by (apply Z.div_le_lower_bound; lia).
      nia.
    + apply Qc_difference_pos. exact Hpu.
Qed.

(** X2.  For a line in whole numbers within [MAX_SAFE_INTEGER], a
    quantity below the batch size, and above 0, is priced at the regular
    price throughout: no unit is at the offer price, the total is the
    subtotal, the discount is 0 and the effective price per unit is the
    regular price.  Unlike the flat result, the breakdown holds one
    regular entry for the whole quantity. *)
Theorem below_one_batch_all_regular (q b p u : Z) :
  safe_whole_line product offerType q b p u ->
  (0 < q < b)%Z ->
  let r := calculateOfferPricing product (of_Z q) offerType in
  itemsAtOfferPrice r = Num.zero
  /\ itemsAtRegularPrice r = of_Z q
  /\ total r = subtotal r
  /\ discount r = Num.zero
  /\ effectivePricePerUnit r = regularPrice product
  /\ breakdown r = [regularEntry (of_Z q) (regularPrice product)].
Proof.
  intros Hsafe Hq r. subst r.
  destruct (safe_whole_line_offer q b p u Hsafe) as [Hoffer _].
  rewrite (whole_batch_pricing _ _ q b (Zc p) (Zc u) Hoffer) by lia.
  destruct Hoffer as (_ & _ & Hb & -> & _).
  rewrite Z.div_small, Z.mod_small by lia.
  change (0 * b)%Z with 0%Z.
  cbn [discount itemsAtOfferPrice itemsAtRegularPrice total subtotal
       effectivePricePerUnit breakdown].
  assert (Hq0 : Zc q <> 0%Qc).
  { intros E. apply (Zc_inj q 0) in E. lia. }
  assert (Ht : (Zc 0 * Zc u + Zc q * Zc p = Zc q * Zc p)%Qc).
  { change (Zc 0) with 0%Qc. ring. }
  rewrite Ht. conjuncts; try reflexivity.
  - unfold Num.zero, of_Z. f_equal. change (Zc 0) with 0%Qc. ring.
  - unfold of_Z, Num.div. apply Qc_eqb_neq in Hq0. rewrite Hq0.
    f_equal. apply Qc_eqb_neq in Hq0. field. exact Hq0.
  - destruct (Z.ltb_spec 0 q); [reflexivity | lia].
Qed.

(** X3.  For a line in whole numbers within [MAX_SAFE_INTEGER], a
    quantity that is a whole number of batches is priced at the offer
    price throughout: no unit is at the regular price, the total is the
    quantity times the offer price, the effective price per unit is the
    offer price, and the breakdown holds one offer entry. *)
Theorem whole_batches_all_offer (k b p u : Z) :
  safe_whole_line product offerType (k * b) b p u ->
  (0 < k)%Z ->
  let r := calculateOfferPricing product (of_Z (k * b)) offerType in
  itemsAtOfferPrice r = of_Z (k * b)
  /\ itemsAtRegularPrice r = Num.zero
  /\ total r = of_Z (k * b) * offerPricePerUnit product
  /\ effectivePricePerUnit r = offerPricePerUnit product
  /\ breakdown r = [offerEntry (of_Z (k * b)) (offerPricePerUnit product)].
Proof.
  intros Hsafe Hk r. subst r.
  destruct (safe_whole_line_offer (k * b) b p u Hsafe) as [Hoffer _].
  assert (Hb : (0 < b)%Z) by apply Hoffer.
  assert (Hkb : (0 < k * b)%Z) by nia.
  rewrite (whole_batch_pricing _ _ (k * b) b (Zc p) (Zc u) Hoffer) by lia.
  destruct Hoffer as (_ & _ & _ & _ & ->).
  rewrite Z.div_mul, Z.mod_mul by lia.
  cbn [discount itemsAtOfferPrice itemsAtRegularPrice total subtotal
       effectivePricePerUnit breakdown].
  assert (Hq0 : Zc (k * b) <> 0%Qc).
  { intros E. apply (Zc_inj (k * b) 0) in E. lia. }
  assert (Ht : (Zc (k * b) * Zc u + Zc 0 * Zc p = Zc (k * b) * Zc u)%Qc).
  { change (Zc 0) with 0%Qc. ring. }
  rewrite Ht. conjuncts; try reflexivity.
  - unfold of_Z, Num.div. apply Qc_eqb_neq in Hq0. rewrite Hq0.
    f_equal. apply Qc_eqb_neq in Hq0. field. exact Hq0.
  - destruct (Z.ltb_spec 0 (k * b)); [reflexivity | lia].
Qed.

(** X4.  For a line in whole numbers within [MAX_SAFE_INTEGER], the units
    at the regular price are fewer than a batch and not negative, and the
    units at the offer price are between 0 and the quantity. *)
Theorem remainder_is_less_than_a_batch (q b p u : Z) :
  safe_whole_line product offerType q b p u ->
  let r := calculateOfferPricing product (of_Z q) offerType in
  (Num.zero <=? itemsAtRegularPrice r) = true
  /\ (batchSize product >? itemsAtRegularPrice r) = true
  /\ (Num.zero <=? itemsAtOfferPrice r) = true
  /\ (itemsAtOfferPrice r <=? of_Z q) = true.
Proof.
  intros Hsafe r. subst r.
  destruct (safe_whole_line_offer q b p u Hsafe) as [Hoffer Hq].
  rewrite (whole_batch_pricing _ _ q b (Zc p) (Zc u) Hoffer Hq).
  destruct Hoffer as (_ & -> & Hb & _).
  cbn [itemsAtOfferPrice itemsAtRegularPrice].
  pose proof (Z.mod_pos_bound q b Hb) as Hmod.
  pose proof (Z.div_mod q b ltac:(lia)) as Hdiv.
  assert (Hunits : (0 <= q / b * b)%Z).
  { apply Z.mul_nonneg_nonneg; [apply Z.div_pos|]; lia. }
  conjuncts.
  - apply le_Fin, Zc_le. lia.
  - apply gt_Fin, Zc_lt. lia.
  - apply le_Fin, Zc_le. exact Hunits.
  - apply le_Fin, Zc_le. lia.
Qed.

(** X5.  One more batch, for a line in whole numbers that is within
    [MAX_SAFE_INTEGER] with the batch added: with [b] more units, the
    units at the offer price grow by [b], the units at the regular price
    stay, the total grows by [b] times the offer price and the subtotal by
    [b] times the regular price. *)
Theorem one_more_batch (q b p u : Z) :
  safe_whole_line product offerType (q + b) b p u ->
  (0 <= q)%Z ->
  let r := calculateOfferPricing product (of_Z q) offerType in
  let r' := calculateOfferPricing product (of_Z (q + b)) offerType in
  itemsAtOfferPrice r' = itemsAtOfferPrice r + batchSize product
  /\ itemsAtRegularPrice r' = itemsAtRegularPrice r
  /\ total r' = total r + batchSize product * offerPricePerUnit product
  /\ subtotal r' = subtotal r + batchSize product * regularPrice product.
Proof.
  intros Hsafe Hq r r'. subst r r'.
  destruct (safe_whole_line_offer (q + b) b p u Hsafe) as [Hoffer _].
  assert (Hb : (0 < b)%Z) by apply Hoffer.
  rewrite (whole_batch_pricing _ _ q b (Zc p) (Zc u) Hoffer Hq).
  rewrite (whole_batch_pricing _ _ (q + b) b (Zc p) (Zc u) Hoffer) by lia.
  destruct Hoffer as (_ & -> & _ & -> & ->).
  cbn [itemsAtOfferPrice itemsAtRegularPrice total subtotal].
  replace ((q + b) / b)%Z with (q / b + 1)%Z
    by (rewrite <- (Z.div_add q 1 b) by lia; f_equal; lia).
  replace ((q + b) mod b)%Z with (q mod b)%Z
    by (rewrite <- (Z.mod_add q 1 b) by lia; f_equal; lia).
  replace ((q / b + 1) * b)%Z with (q / b * b + b)%Z by lia.
  unfold of_Z. cbn [Num.add Num.mul]. rewrite !Zc_add.
  conjuncts; try reflexivity; f_equal; ring.
Qed.

(** X6.  For a line in whole numbers within [MAX_SAFE_INTEGER], the
    breakdown accounts for the whole line: the quantities of its entries
    add up to the quantity and their totals to the total. *)
Theorem breakdown_accounts_for_line (q b p u : Z) :
  safe_whole_line product offerType q b p u ->
  let r := calculateOfferPricing product (of_Z q) offerType in
  sum (map entry_quantity (breakdown r)) = of_Z q
  /\ sum (map entry_total (breakdown r)) = total r.
Proof.
  intros Hsafe r. subst r.
  destruct (safe_whole_line_offer q b p u Hsafe) as [Hoffer Hq].
  assert (Hb : (0 < b)%Z) by apply Hoffer.
  rewrite (whole_batch_pricing _ _ q b (Zc p) (Zc u) Hoffer Hq).
  cbn [breakdown total].
  pose proof (Z.mod_pos_bound q b Hb) as Hmod.
  assert (Hunits : (0 <= q / b * b)%Z).
  { apply Z.mul_nonneg_nonneg; [apply Z.div_pos|]; lia. }
  rewrite !map_app, !sum_app.
  assert (Hzero : forall k : Z, (0 <= k)%Z -> (0 <? k)%Z = false -> Zc k = 0%Qc).
  { intros k Hk Hlt. apply Z.ltb_ge in Hlt.
    replace k with 0%Z by lia. reflexivity. }
  destruct (0 <? q / b * b)%Z eqn:Eo; destruct (0 <? q mod b)%Z eqn:Er;
    cbn [map sum fold_right offerEntry regularEntry entry_quantity entry_total];
    unfold of_Z, Num.zero, of_Z; cbn [Num.add Num.mul];
    rewrite (Zc_split q b Hb);
    rewrite ?(Hzero _ Hunits Eo), ?(Hzero (q mod b)%Z (proj1 Hmod) Er);
    change (Zc 0) with 0%Qc; split; f_equal; ring.
Qed.

(** X7.  For a line in whole numbers within [MAX_SAFE_INTEGER] whose
    offer price is at most the regular price, the total is between the
    quantity at the offer price and the quantity at the regular price, and
    for a quantity above 0 the effective price per unit is between the
    offer price and the regular price. *)
Theorem total_between_offer_and_regular (q b p u : Z) :
  safe_whole_line product offerType q b p u ->
  (u <= p)%Z ->
  let r := calculateOfferPricing product (of_Z q) offerType in
  (of_Z q * offerPricePerUnit product <=? total r) = true
  /\ (total r <=? of_Z q * regularPrice product) = true
  /\ ((0 < q)%Z ->
      (offerPricePerUnit product <=? effectivePricePerUnit r) = true
      /\ (effectivePricePerUnit r <=? regularPrice product) = true).
Proof.
  intros Hsafe Hup r. subst r. apply Zc_le in Hup.
  destruct (safe_whole_line_offer q b p u Hsafe) as [Hoffer Hq].
  assert (Hb : (0 < b)%Z) by apply Hoffer.
  rewrite (whole_batch_pricing _ _ q b (Zc p) (Zc u) Hoffer Hq).
  destruct Hoffer as (_ & _ & _ & -> & ->).
  cbn [total effectivePricePerUnit].
  pose proof (Z.mod_pos_bound q b Hb) as Hmod.
  assert (Hunits : (0 <= q / b * b)%Z).
  { apply Z.mul_nonneg_nonneg; [apply Z.div_pos|]; lia. }
  set (t := (Zc (q / b * b) * Zc u + Zc (q mod b) * Zc p)%Qc).
  assert (Hlow : (Zc q * Zc u <= t)%Qc).
  { apply Qc_le_by_difference.
    replace (t - Zc q * Zc u)%Qc with (Zc (q mod b) * (Zc p - Zc u))%Qc
      by (unfold t; rewrite (Zc_split q b Hb); ring).
    apply Qc_mul_nonneg; [apply Zc_nonneg; lia|].
    apply Qc_difference_nonneg. exact Hup. }
  assert (Hhigh : (t <= Zc q * Zc p)%Qc).
  { apply Qc_le_by_difference.
    replace (Zc q * Zc p - t)%Qc with (Zc (q / b * b) * (Zc p - Zc u))%Qc
      by (unfold t; rewrite (Zc_split q b Hb); ring).
    apply Qc_mul_nonneg; [apply Zc_nonneg; exact Hunits|].
    apply Qc_difference_nonneg. exact Hup. }
  split; [apply le_Fin; exact Hlow|]. split; [apply le_Fin; exact Hhigh|].
  intros Hpos.
  assert (Hq0 : Zc q <> 0%Qc).
  { intros E. apply (Zc_inj q 0) in E. lia. }
  assert (Hqpos : (0 < Zc q)%Qc) by (apply Zc_pos; exact Hpos).
  assert (Hback : (t / Zc q * Zc q = t)%Qc) by (field; exact Hq0).
  unfold of_Z, Num.div.
  apply Qc_eqb_neq in Hq0. rewrite Hq0.
  split; apply le_Fin.
  - apply (Qcmult_lt_0_le_reg_r _ _ (Zc q) Hqpos).
    rewrite Hback, Qcmult_comm. exact Hlow.
  - apply (Qcmult_lt_0_le_reg_r _ _ (Zc q) Hqpos).
    rewrite Hback, (Qcmult_comm (Zc p)). exact Hhigh.
Qed.

End WholeBatchProperties.

(** ** The discount as a difference *)

Section FiniteLines.

Context {A : Type} `{ProductLike A}.

Local Open Scope num_scope.

(** X8.  When the subtotal of a line is a finite number, the discount is
    the subtotal minus the total, whichever branch is taken: in the flat
    result, where the discount is written as 0, as well. *)
Theorem discount_is_subtotal_minus_total
    (product : A) (offerType : option string) (quantity : number) :
  let r := calculateOfferPricing product quantity offerType in
  is_finite (subtotal r) = true ->
  discount r = subtotal r - total r.
Proof.
  intros r. subst r. unfold calculateOfferPricing. cbv zeta.
  destruct (regularOnly product (offerTypeOrDefault offerType)).
  - cbn [flatPricing subtotal total discount].
    destruct (regularPrice product * quantity) as [s| | |];
      try discriminate.
    intros _. cbn. unfold Num.zero, of_Z. f_equal.
    change (Zc 0) with 0%Qc. ring.
  - intros _. reflexivity.
Qed.

End FiniteLines.

(** ** Carts *)

Section Carts.

Local Open Scope num_scope.

(** The result of [calculateCartTotal], written with sums. *)
Lemma calculateCartTotal_sums (cartItems : list CartItem) :
  calculateCartTotal cartItems
  = {| cart_subtotal := sum (map (fun i => subtotal (pricing (priced i))) cartItems);
       cart_discount := sum (map (fun i => discount (pricing (priced i))) cartItems);
       cart_total := sum (map (fun i => total (pricing (priced i))) cartItems);
       cart_items := map priced cartItems |}.
Proof.
  unfold calculateCartTotal. cbv zeta. rewrite Array_map_priceItem.
  cbn [totalSubtotal totalDiscount totalAmount].
  rewrite !running_total_from_zero. reflexivity.
Qed.

(** Mapping over a list with one more element at its end. *)
Lemma Array_map_last {S X Y : Type} (f : X -> S -> Y * S)
    (xs : list X) (x : X) (st : S) :
  Array_map f (xs ++ [x])%list st
  = let '(ys, st0) := Array_map f xs st in
    let '(y, st1) := f x st0 in
    ((ys ++ [y])%list, st1).
Proof.
  revert st. induction xs as [|first rest IH]; intros st; cbn [Array_map app].
  - destruct (f x st). reflexivity.
  - destruct (f first st) as [y1 st1]. rewrite IH.
    destruct (Array_map f rest st1) as [ys st0].
    destruct (f x st0). reflexivity.
Qed.

(** X10.  A cart with one more item at its end: its items are the items
    of the cart before followed by the new item with its pricing, and each
    of its three totals is the total before plus the subtotal, the
    discount or the total of the new line, added in this order.  The empty
    cart has no item and totals of 0. *)
Theorem cart_with_one_more_item (cartItems : list CartItem) (item : CartItem) :
  let c := calculateCartTotal (cartItems ++ [item])%list in
  let c0 := calculateCartTotal cartItems in
  let line :=
    calculateOfferPricing item (item_quantity item) (item_offerType item) in
  cart_items c = (cart_items c0 ++ [{| entry := item; pricing := line |}])%list
  /\ cart_subtotal c = cart_subtotal c0 + subtotal line
  /\ cart_discount c = cart_discount c0 + discount line
  /\ cart_total c = cart_total c0 + total line
  /\ calculateCartTotal []
     = {| cart_subtotal := Num.zero; cart_discount := Num.zero;
          cart_total := Num.zero; cart_items := [] |}.
Proof.
  intros c c0 line. subst c c0 line.
  unfold calculateCartTotal. cbv zeta. rewrite Array_map_last.
  destruct (Array_map priceItem cartItems _) as [items0 st0].
  unfold priceItem. cbv zeta.
  cbn [cart_items cart_subtotal cart_discount cart_total Array_map
       totalSubtotal totalDiscount totalAmount].
  conjuncts; reflexivity.
Qed.

Lemma sum_of_zeros {X : Type} (f : X -> number) (xs : list X) :
  Forall (fun x => f x = Num.zero) xs -> sum (map f xs) = Num.zero.
Proof.
  induction 1 as [|x xs Hx _ IH]; [reflexivity|].
  cbn [map sum fold_right]. fold (sum (map f xs)). rewrite Hx, IH. reflexivity.
Qed.

(** X11.  A cart without batch pricing: when every item has no special
    offer, or has the offer type ["regular"], or has no offer type, the
    discount of the cart is 0, its total is its subtotal, and the
    discount label of the cart is empty. *)
Theorem cart_without_offers_has_no_discount (cartItems : list CartItem) :
  Forall (fun item =>
            item_specialOffer item = None
            \/ item_offerType item = Some "regular"
            \/ item_offerType item = None) cartItems ->
  let c := calculateCartTotal cartItems in
  cart_discount c = Num.zero
  /\ cart_total c = cart_subtotal c
  /\ formatDiscount (cart_discount c) = "".
Proof.
  intros Hitems c. subst c. rewrite calculateCartTotal_sums.
  cbn [cart_subtotal cart_discount cart_total].
  assert (Hflat : Forall (fun item =>
                            pricing (priced item)
                            = flatPricing (regularPrice item) (item_quantity item))
                         cartItems).
  { eapply Forall_impl; [|exact Hitems]. intros item Hitem.
    unfold priced, calculateOfferPricing. cbv zeta. cbn [pricing].
    assert (E : regularOnly item (offerTypeOrDefault (item_offerType item)) = true).
    { unfold regularOnly. destruct Hitem as [E | [E | E]].
      - change (specialOffer item) with (item_specialOffer item).
        rewrite E. reflexivity.
      - rewrite E. cbn. apply orb_true_r.
      - rewrite E. cbn. apply orb_true_r. }
    rewrite E. reflexivity. }
  assert (Hzero : sum (map (fun i => discount (pricing (priced i))) cartItems)
                  = Num.zero).
  { apply sum_of_zeros. eapply Forall_impl; [|exact Hflat].
    intros item ->. reflexivity. }
  rewrite Hzero. split; [reflexivity|]. split; [|reflexivity].
  f_equal. apply map_ext_Forall. eapply Forall_impl; [|exact Hflat].
  intros item ->. reflexivity.
Qed.

End Carts.

(** ** Labels of whole discounts *)

Section WholeDiscounts.

Local Open Scope num_scope.

Lemma Qfloor_unique (y : Q) (n : Z) :
  (inject_Z n <= y)%Q -> (y < inject_Z (n + 1))%Q -> Qfloor y = n.
Proof.
  intros Hlo Hhi.
  assert (L : (n <= Qfloor y)%Z).
  { rewrite <- (Qfloor_Z n). apply Qfloor_resp_le. exact Hlo. }
  assert (U : (Qfloor y < n + 1)%Z).
  { apply Z.lt_nge. intros G. apply (Qlt_not_le _ _ Hhi).
    apply Qle_trans with (inject_Z (Qfloor y)); [|apply Qfloor_le].
    rewrite <- Zle_Qle. exact G. }
  lia.
Qed.

(** [Math.round] leaves a whole number as it is. *)
Lemma round_of_Z (z : Z) : Num.round (of_Z z) = of_Z z.
Proof.
  unfold of_Z. cbn [Num.round]. unfold of_Z. do 2 f_equal.
  apply Qfloor_unique.
  - rewrite this_Qcplus, this_Zc.
    rewrite <- (Qplus_0_r (inject_Z z)) at 1.
    apply Qplus_le_r. discriminate.
  - rewrite this_Qcplus, this_Zc, inject_Z_plus.
    apply Qplus_lt_r. reflexivity.
Qed.

(** The label of a whole discount. *)
Lemma formatDiscount_of_Z (z : Z) :
  (0 < z <= MAX_SAFE_INTEGER)%Z ->
  formatDiscount (of_Z z) = "₹" ++ Print.numeral z ++ " सूट".
Proof.
  intros [Hpos Hbig]. unfold formatDiscount.
  rewrite gt_of_Z, (proj2 (Z.ltb_lt 0 z) Hpos), round_of_Z.
  unfold of_Z. cbn [Number_toString]. rewrite Qfloor_Zc.
  rewrite integer_within_safe by lia. reflexivity.
Qed.

(** X13.  A discount that is a whole number is labelled without change:
    the label is empty when it is 0 or below, and above 0 and up to
    [MAX_SAFE_INTEGER] it is the currency sign, the decimal digits of the
    discount and the word for discount. *)
Theorem whole_discount_label (z : Z) :
  ((z <= 0)%Z -> formatDiscount (of_Z z) = "")
  /\ ((0 < z <= MAX_SAFE_INTEGER)%Z ->
      formatDiscount (of_Z z) = "₹" ++ Print.numeral z ++ " सूट").
Proof.
  split.
  - intros Hz. unfold formatDiscount.
    rewrite gt_of_Z, (proj2 (Z.ltb_ge 0 z) Hz). reflexivity.
  - apply formatDiscount_of_Z.
Qed.

(** X14.  A discount above 0 and below one half has a label, and the
    label shows 0. *)
Theorem small_discount_is_labelled_zero (x : Qc) :
  (0 < x)%Qc -> (x < half)%Qc ->
  formatDiscount (Fin x) = "₹0 सूट".
Proof.
  intros Hpos Hhalf. unfold formatDiscount.
  assert (G : (Fin x >? Num.zero) = true) by (apply gt_Fin; exact Hpos).
  rewrite G. cbn [Num.round].
  assert (F : Qfloor (x + half)%Qc = 0%Z).
  { apply Qfloor_unique.
    - rewrite this_Qcplus. change (inject_Z 0) with (0 + 0)%Q.
      apply Qplus_le_compat.
      + apply Qlt_le_weak. exact Hpos.
      + discriminate.
    - rewrite this_Qcplus.
      apply Qlt_le_trans with (this half + this half)%Q.
      + apply Qplus_lt_l. exact Hhalf.
      + discriminate. }
  rewrite F. reflexivity.
Qed.

End WholeDiscounts.

Section SavingsLabel.

Context {A : Type} `{ProductLike A}.

Local Open Scope num_scope.

(** X15.  From the line to the label.  For a line in whole numbers
    within [MAX_SAFE_INTEGER], an offer price [u] below the regular price
    [p] and a quantity that holds a full batch, the label of the discount
    of the line shows the units at the offer price times [p - u]. *)
Theorem savings_label
    (product : A) (offerType : option string) (q b p u : Z) :
  safe_whole_line product offerType q b p u ->
  (u < p)%Z ->
  (b <= q)%Z ->
  formatDiscount (discount (calculateOfferPricing product (of_Z q) offerType))
  = "₹" ++ Print.numeral (q / b * b * (p - u)) ++ " सूट".
Proof.
  intros Hsafe Hup Hbq.
  assert (Hoffer : whole_batch_offer product offerType b (Zc p) (Zc u)).
  { destruct Hsafe as (Hbranch & Hsize & [Hb _] & Hp & _ & Hu & _).
    unfold whole_batch_offer. auto. }
  destruct Hsafe as (_ & _ & [Hb _] & _ & [Hp _] & _ & [Hu _] & Hq & Hqp & _).
  rewrite (whole_batch_pricing _ _ q b (Zc p) (Zc u) Hoffer) by lia.
  cbn [discount].
  replace (Fin (Zc q * Zc p - (Zc (q / b * b) * Zc u + Zc (q mod b) * Zc p)))
    with (of_Z (q / b * b * (p - u))).
  - apply formatDiscount_of_Z.
    assert (Hfull : (1 <= q / b)%Z) by (apply Z.div_le_lower_bound; lia).
    assert (Hunits : (q / b * b <= q)%Z).
    { rewrite Z.mul_comm. apply Z.mul_div_le. exact Hb. }
    split.
    + apply Z.mul_pos_pos; [apply Z.mul_pos_pos|]; lia.
    + apply Z.le_trans with (q * p)%Z; [|exact Hqp].
      apply Z.mul_le_mono_nonneg; lia.
  - unfold of_Z. f_equal. rewrite Zc_mul, Zc_sub, (Zc_split q b Hb). ring.
Qed.

End SavingsLabel.

(** ** Prices given as strings *)

Section StringPrices.

Local Open Scope num_scope.

(** Reading the digits of a decimal numeral. *)
Lemma digits_of_uint_acc (d : Decimal.uint) (a : positive) (count : nat) :
  Parse.digits (NilEmpty.string_of_uint d) (Z.pos a) count
  = (Z.pos (Pos.of_uint_acc d a), (count + Decimal.nb_digits d)%nat, "").
Proof.
  revert a count. induction d; intros a count;
    cbn [NilEmpty.string_of_uint Pos.of_uint_acc].
  1: { cbn. rewrite Nat.add_0_r. reflexivity. }
  all: cbn [Parse.digits]; 
    match goal with
    | |- context [Parse.digit ?c] =>
        let k := eval vm_compute in (Parse.digit c) in
        change (Parse.digit c) with k
    end;
    cbv iota beta;
    match goal with
    | |- Parse.digits _ ?acc _ = _ =>
        match goal with
        | |- _ = (Z.pos (Pos.of_uint_acc _ ?a'), _, _) =>
            replace acc with (Z.pos a') by lia
        end
    end;
    rewrite IHd; cbn [Decimal.nb_digits]; f_equal; f_equal; lia.
Qed.

Lemma digits_of_uint (d : Decimal.uint) (count : nat) :
  Parse.digits (NilEmpty.string_of_uint d) 0 count
  = (Z.of_N (Pos.of_uint d), (count + Decimal.nb_digits d)%nat, "").
Proof.
  revert count. induction d; intros count;
    cbn [NilEmpty.string_of_uint Pos.of_uint].
  1: { cbn. rewrite Nat.add_0_r. reflexivity. }
  1: { cbn [Parse.digits].
       change (Parse.digit "0") with (Some 0%Z). cbv iota beta.
       change (10 * 0 + 0)%Z with 0%Z. rewrite IHd.
       cbn [Decimal.nb_digits]. f_equal. f_equal. lia. }
  all: cbn [Parse.digits];
    match goal with
    | |- context [Parse.digit ?c] =>
        let k := eval vm_compute in (Parse.digit c) in
        change (Parse.digit c) with k
    end;
    cbv iota beta;
    match goal with
    | |- Parse.digits _ ?acc _ = _ =>
        let v := eval vm_compute in acc in change acc with v
    end;
    rewrite digits_of_uint_acc; cbn [Decimal.nb_digits Z.of_N];
    f_equal; f_equal; lia.
Qed.

(** A string that begins with a digit is parsed without sign, as a decimal
    literal. *)
Lemma parseFloat_string_digit (c : ascii) (k : Z) (rest : string) :
  Parse.digit c = Some k ->
  Parse.parseFloat_string (String c rest)
  = match Parse.decimal (String c rest) with
    | Some x => Fin x
    | None => NaN
    end.
Proof.
  intros Hd.
  destruct c as [[] [] [] [] [] [] [] []];
    try (vm_compute in Hd; discriminate Hd);
    destruct rest as [|c2 [|c3 s3]]; reflexivity.
Qed.

Lemma pow10_zero : Parse.pow10 0 = 1%Qc.
Proof. apply Qc_is_canon. reflexivity. Qed.

(** Parsing the decimal numeral of a whole number that is not negative
    gives the number back. *)
Lemma parseFloat_numeral (z : Z) :
  (0 <= z)%Z -> parseFloat (VStr (Print.numeral z)) = of_Z z.
Proof.
  intros Hz. destruct z as [|n|n]; [number_eq | | lia].
  cbn [parseFloat]. unfold Print.numeral. cbn [Z.to_int NilZero.string_of_int].
  pose proof (DecimalPos.Unsigned.of_to n) as Hback.
  pose proof (digits_of_uint (Pos.to_uint n) 0) as Hdigits.
  rewrite Hback in Hdigits.
  assert (Hnn : Pos.to_uint n <> Decimal.Nil).
  { intros E. rewrite E in Hback. discriminate Hback. }
  clear Hback.
  assert (Hshape : exists c k rest,
             NilZero.string_of_uint (Pos.to_uint n) = String c rest
             /\ NilEmpty.string_of_uint (Pos.to_uint n) = String c rest
             /\ Parse.digit c = Some k).
  { destruct (Pos.to_uint n) eqn:E;
      [ exfalso; apply Hnn; reflexivity | .. ];
      eexists _, _, _; (split; [reflexivity|]); (split; [reflexivity|]);
      vm_compute; reflexivity. }
  destruct Hshape as (c & k & rest & Ezero & Eempty & Hc).
  rewrite Ezero, (parseFloat_string_digit c k rest Hc).
  rewrite Eempty in Hdigits. unfold Parse.decimal. rewrite Hdigits.
  assert (Hcount : (0 + Decimal.nb_digits (Pos.to_uint n))%nat <> 0%nat).
  { destruct (Pos.to_uint n); [exfalso; apply Hnn; reflexivity | ..];
      discriminate. }
  apply Nat.eqb_neq in Hcount. rewrite Hcount.
  cbn [andb Parse.exponent Z.of_nat Z.opp]. rewrite pow10_zero.
  unfold of_Z. f_equal. unfold Zc.
  replace (Z.of_N (N.pos n) * 10 ^ 0 + 0)%Z with (Z.pos n) by (cbn; lia).
  ring.
Qed.


End StringPrices.

(** ** The change handler of the editor *)

Section ChangeHandler.

Import Editor.

Local Open Scope num_scope.

Lemma dropWhile_length {X : Type} (f : X -> bool) (xs : list X) :
  (List.length (dropWhile f xs) <= List.length xs)%nat.
Proof.
  induction xs as [|x xs IH]; cbn; [lia|].
  destruct (f x); cbn; lia.
Qed.

Lemma dropWhile_all {X : Type} (f : X -> bool) (xs ys : list X) :
  forallb f xs = true -> dropWhile f (xs ++ ys)%list = dropWhile f ys.
Proof.
  induction xs as [|x xs IH]; cbn; [reflexivity|].
  intros Hall. apply andb_true_iff in Hall. destruct Hall as [-> Hall].
  apply IH. exact Hall.
Qed.

Lemma forallb_rev {X : Type} (f : X -> bool) (xs : list X) :
  forallb f (rev xs) = forallb f xs.
Proof.
  induction xs as [|x xs IH]; cbn; [reflexivity|].
  rewrite forallb_app, IH. cbn. rewrite andb_true_r. apply andb_comm.
Qed.

Lemma trimEnd_white_tail (s tail : jsstring) :
  forallb isWhiteSpace tail = true -> trimEnd (s ++ tail)%list = trimEnd s.
Proof.
  intros Hall. unfold trimEnd. rewrite rev_app_distr, dropWhile_all.
  - reflexivity.
  - rewrite forallb_rev. exact Hall.
Qed.

Lemma trimEnd_length (s : jsstring) :
  (List.length (trimEnd s) <= List.length s)%nat.
Proof.
  unfold trimEnd. rewrite length_rev.
  etransitivity; [apply dropWhile_length|]. rewrite length_rev. lia.
Qed.

(** Trimming a string followed by white space leaves no more than the
    string. *)
Lemma trim_white_tail_length (s tail : jsstring) :
  forallb isWhiteSpace tail = true ->
  (List.length (trim (s ++ tail)%list) <= List.length s)%nat.
Proof.
  intros Hall. unfold trim, trimStart.
  assert (G : forall t : jsstring,
             (List.length (trimEnd (dropWhile isWhiteSpace (t ++ tail)%list))
              <= List.length t)%nat).
  { induction t as [|c t IH]; cbn [app dropWhile].
    - rewrite <- (app_nil_l (dropWhile isWhiteSpace tail)).
      assert (W : forallb isWhiteSpace (dropWhile isWhiteSpace tail) = true).
      { clear -Hall. induction tail as [|c tail IH]; [reflexivity|].
        cbn in Hall |- *. apply andb_true_iff in Hall.
        destruct Hall as [-> Hall]. apply IH. exact Hall. }
      rewrite (trimEnd_white_tail [] _ W). cbn. lia.
    - destruct (isWhiteSpace c).
      + cbn [List.length]. specialize IH. lia.
      + change (c :: (t ++ tail)%list) with ((c :: t) ++ tail)%list.
        rewrite (trimEnd_white_tail _ _ Hall). apply trimEnd_length. }
  apply G.
Qed.

Lemma Zc_floor_le (x : Qc) : (Zc (Qfloor x) <= x)%Qc.
Proof. unfold Qcle. rewrite this_Zc. apply Qfloor_le. Qed.

(** The end index of [substring (0, n)] is at most [n], when [n] is not
    negative. *)
Lemma substringEnd_le (s : jsstring) (n : number) :
  (Num.zero <=? n) = true ->
  (of_Z (Z.of_nat (substringEnd s n)) <=? n) = true.
Proof.
  destruct n as [x| | |]; try discriminate; [|reflexivity].
  intros Hx. apply le_Fin in Hx. change (Zc 0) with 0%Qc in Hx.
  unfold substringEnd. rewrite (Qc_trunc_nonneg x Hx).
  apply le_Fin.
  assert (F : (0 <= Qfloor x)%Z).
  { change 0%Z with (Qfloor 0%Qc). apply Qfloor_resp_le. exact Hx. }
  apply Qcle_trans with (Zc (Qfloor x)); [|apply Zc_floor_le].
  apply Zc_le. lia.
Qed.

Lemma le_of_Z_trans (a b : Z) (n : number) :
  (a <= b)%Z -> (of_Z b <=? n) = true -> (of_Z a <=? n) = true.
Proof.
  intros Hab. destruct n as [x| | |]; try discriminate; [|reflexivity].
  intros Hb. apply le_Fin in Hb. apply le_Fin.
  apply Qcle_trans with (Zc b); [apply Zc_le; exact Hab | exact Hb].
Qed.

(** X17.  When the limit is not negative, what the handler truncates to
    is within the limit.  If a change is over the limit and there is an
    editor, the handler sets one text, the first code units of the text
    of the editor; and the change that follows, with this text and any
    white space after it (such as the line end an editor adds), is
    accepted: [onChange] is called with its content. *)
Theorem truncated_text_is_accepted {C : Type}
    (maxLength : number) (content : C) (text : jsstring) :
  (Num.zero <=? maxLength) = true ->
  (length (trim text) <=? maxLength) = false ->
  exists truncated : jsstring,
    handleChange maxLength true content text = [SetText truncated]
    /\ truncated = firstn (List.length truncated) text
    /\ (length truncated <=? maxLength) = true
    /\ forall (quill : bool) (content' : C) (tail : jsstring),
         forallb isWhiteSpace tail = true ->
         handleChange maxLength quill content' (truncated ++ tail)%list
         = [OnChange content'].
Proof.
  intros Hlimit Hover. exists (substring0 text maxLength).
  assert (Hlen : (length (substring0 text maxLength) <=? maxLength) = true).
  { unfold length, substring0. rewrite length_firstn.
    apply le_of_Z_trans with (Z.of_nat (substringEnd text maxLength)); [lia|].
    apply substringEnd_le. exact Hlimit. }
  split; [|split; [|split]].
  - unfold handleChange. cbv zeta. rewrite Hover. reflexivity.
  - unfold substring0. rewrite length_firstn, <- firstn_firstn, firstn_all.
    reflexivity.
  - exact Hlen.
  - intros quill content' tail Htail. unfold handleChange. cbv zeta.
    assert (Hfit : (length (trim (substring0 text maxLength ++ tail)%list)
                    <=? maxLength) = true).
    { unfold length in Hlen |- *.
      eapply le_of_Z_trans; [|exact Hlen].
      apply Nat2Z.inj_le. apply trim_white_tail_length. exact Htail. }
    rewrite Hfit. reflexivity.
Qed.

End ChangeHandler.

(** ** Missing prices and incomplete offers *)

Section MissingFields.

Context {A : Type} `{ProductLike A}.

Local Open Scope num_scope.

(** X18.  A price that is missing counts as 0.  When the price is
    undefined, null, a boolean, NaN or the empty string, the regular price
    is 0; so for a finite quantity the flat result has a subtotal and a
    total of 0, and no error is raised. *)
Theorem missing_price_counts_as_zero
    (product : A) (offerType : option string) (x : Qc) :
  price product = VUndefined
  \/ price product = VNull
  \/ (exists b, price product = VBool b)
  \/ price product = VNum NaN
  \/ price product = VStr "" ->
  let r := calculateOfferPricing product (Fin x) offerType in
  regularPrice product = Num.zero
  /\ (regularOnly product (offerTypeOrDefault offerType) = true ->
      subtotal r = Num.zero /\ total r = Num.zero /\ discount r = Num.zero).
Proof.
  intros Hprice r.
  assert (Hzero : regularPrice product = Num.zero).
  { unfold regularPrice.
    destruct Hprice as [E | [E | [[b E] | [E | E]]]]; rewrite E; reflexivity. }
  split; [exact Hzero|]. intros Hflat. subst r.
  unfold calculateOfferPricing. cbv zeta. rewrite Hflat, Hzero.
  cbn [flatPricing subtotal total discount].
  assert (Hmul : Num.zero * Fin x = Num.zero).
  { unfold Num.zero, of_Z. cbn [Num.mul]. f_equal. change (Zc 0) with 0%Qc. ring. }
  rewrite Hmul. conjuncts; reflexivity.
Qed.

(** X19.  An offer that is incomplete is ignored.  When the special offer
    has no batch size, or a batch size of 0 or NaN, or an offer price per
    unit that is undefined, null, 0, NaN or the empty string, the result
    is the flat one, for the offer type ["bulk"] as for any other. *)
Theorem incomplete_offer_is_ignored
    (product : A) (offer : SpecialOffer)
    (quantity : number) (offerType : option string) :
  specialOffer product = Some offer ->
  (so_quantity offer = None
   \/ so_quantity offer = Some Num.zero
   \/ so_quantity offer = Some NaN)
  \/ (so_offerPricePerUnit offer = VUndefined
      \/ so_offerPricePerUnit offer = VNull
      \/ so_offerPricePerUnit offer = VNum Num.zero
      \/ so_offerPricePerUnit offer = VNum NaN
      \/ so_offerPricePerUnit offer = VStr "") ->
  calculateOfferPricing product quantity offerType
  = flatPricing (regularPrice product) quantity.
Proof.
  intros Hoffer Hmissing.
  assert (E : regularOnly product (offerTypeOrDefault offerType) = true).
  { unfold regularOnly, batchSize, offerPricePerUnit. rewrite Hoffer.
    destruct Hmissing as [[E | [E | E]] | [E | [E | [E | [E | E]]]]];
      rewrite E; cbn; rewrite ?orb_true_r; reflexivity. }
  unfold calculateOfferPricing. cbv zeta. rewrite E. reflexivity.
Qed.

End MissingFields.

(** ** The further properties at concrete inputs *)

Section FurtherInstances.

Local Open Scope num_scope.

Lemma ex_discounted_line (q : Z) :
  (0 <= q <= 1000)%Z ->
  safe_whole_line ex_discounted (Some "bulk") q 3 100 80.
Proof.
  intros Hq. unfold safe_whole_line, MAX_SAFE_INTEGER. conjuncts; try lia.
  - vm_compute. reflexivity.
  - number_eq.
  - number_eq.
  - number_eq.
Qed.

Lemma discount_is_units_times_saving_at_example :
  (safe_whole_line ex_discounted (Some "bulk") 7 3 100 80 /\ (80 <= 100)%Z)
  /\ (let r := calculateOfferPricing ex_discounted (of_Z 7) (Some "bulk") in
      discount r
      = itemsAtOfferPrice r
        * (regularPrice ex_discounted - offerPricePerUnit ex_discounted)
      /\ (Num.zero <=? discount r) = true
      /\ (total r <=? subtotal r) = true).
Proof.
  assert (Hline : safe_whole_line ex_discounted (Some "bulk") 7 3 100 80)
    by (apply ex_discounted_line; lia).
  assert (Hup : (80 <= 100)%Z) by lia.
  split; [auto|].
  destruct (discount_is_units_times_saving ex_discounted (Some "bulk")
              7 3 100 80 Hline)
    as (Hsaving & Hnonneg & _).
  destruct (Hnonneg Hup) as [Hd Ht]. auto.
Defined.

Lemma below_one_batch_all_regular_at_example :
  (safe_whole_line ex_discounted (Some "bulk") 2 3 100 80 /\ (0 < 2 < 3)%Z)
  /\ (let r := calculateOfferPricing ex_discounted (of_Z 2) (Some "bulk") in
      itemsAtOfferPrice r = Num.zero
      /\ itemsAtRegularPrice r = of_Z 2
      /\ total r = subtotal r
      /\ discount r = Num.zero
      /\ effectivePricePerUnit r = regularPrice ex_discounted
      /\ breakdown r = [regularEntry (of_Z 2) (regularPrice ex_discounted)]).
Proof.
  assert (Hline : safe_whole_line ex_discounted (Some "bulk") 2 3 100 80)
    by (apply ex_discounted_line; lia).
  assert (Hq : (0 < 2 < 3)%Z) by lia.
  split; [auto|].
  exact (below_one_batch_all_regular ex_discounted (Some "bulk")
           2 3 100 80 Hline Hq).
Defined.

Lemma whole_batches_all_offer_at_example :
  (safe_whole_line ex_discounted (Some "bulk") (2 * 3) 3 100 80 /\ (0 < 2)%Z)
  /\ (let r := calculateOfferPricing ex_discounted (of_Z (2 * 3)) (Some "bulk") in
      itemsAtOfferPrice r = of_Z (2 * 3)
      /\ itemsAtRegularPrice r = Num.zero
      /\ total r = of_Z (2 * 3) * offerPricePerUnit ex_discounted
      /\ effectivePricePerUnit r = offerPricePerUnit ex_discounted
      /\ breakdown r
         = [offerEntry (of_Z (2 * 3)) (offerPricePerUnit ex_discounted)]).
Proof.
  assert (Hline : safe_whole_line ex_discounted (Some "bulk") (2 * 3) 3 100 80)
    by (apply ex_discounted_line; lia).
  assert (Hk : (0 < 2)%Z) by lia.
  split; [auto|].
  exact (whole_batches_all_offer ex_discounted (Some "bulk")
           2 3 100 80 Hline Hk).
Defined.

Lemma remainder_is_less_than_a_batch_at_example :
  safe_whole_line ex_discounted (Some "bulk") 7 3 100 80
  /\ (let r := calculateOfferPricing ex_discounted (of_Z 7) (Some "bulk") in
      (Num.zero <=? itemsAtRegularPrice r) = true
      /\ (batchSize ex_discounted >? itemsAtRegularPrice r) = true
      /\ (Num.zero <=? itemsAtOfferPrice r) = true
      /\ (itemsAtOfferPrice r <=? of_Z 7) = true).
Proof.
  assert (Hline : safe_whole_line ex_discounted (Some "bulk") 7 3 100 80)
    by (apply ex_discounted_line; lia).
  split; [exact Hline|].
  exact (remainder_is_less_than_a_batch ex_discounted (Some "bulk")
           7 3 100 80 Hline).
Defined.

Lemma one_more_batch_at_example :
  (safe_whole_line ex_discounted (Some "bulk") (7 + 3) 3 100 80 /\ (0 <= 7)%Z)
  /\ (let r := calculateOfferPricing ex_discounted (of_Z 7) (Some "bulk") in
      let r' := calculateOfferPricing ex_discounted (of_Z (7 + 3)) (Some "bulk") in
      itemsAtOfferPrice r' = itemsAtOfferPrice r + batchSize ex_discounted
      /\ itemsAtRegularPrice r' = itemsAtRegularPrice r
      /\ total r'
         = total r + batchSize ex_discounted * offerPricePerUnit ex_discounted
      /\ subtotal r'
         = subtotal r + batchSize ex_discounted * regularPrice ex_discounted).
Proof.
  assert (Hline : safe_whole_line ex_discounted (Some "bulk") (7 + 3) 3 100 80)
    by (apply ex_discounted_line; lia).
  assert (Hq : (0 <= 7)%Z) by lia.
  split; [auto|].
  exact (one_more_batch ex_discounted (Some "bulk") 7 3 100 80 Hline Hq).
Defined.

Lemma breakdown_accounts_for_line_at_example :
  safe_whole_line ex_discounted (Some "bulk") 7 3 100 80
  /\ (let r := calculateOfferPricing ex_discounted (of_Z 7) (Some "bulk") in
      sum (map entry_quantity (breakdown r)) = of_Z 7
      /\ sum (map entry_total (breakdown r)) = total r).
Proof.
  assert (Hline : safe_whole_line ex_discounted (Some "bulk") 7 3 100 80)
    by (apply ex_discounted_line; lia).
  split; [exact Hline|].
  exact (breakdown_accounts_for_line ex_discounted (Some "bulk")
           7 3 100 80 Hline).
Defined.

Lemma total_between_offer_and_regular_at_example :
  (safe_whole_line ex_discounted (Some "bulk") 7 3 100 80
   /\ (80 <= 100)%Z /\ (0 < 7)%Z)
  /\ (let r := calculateOfferPricing ex_discounted (of_Z 7) (Some "bulk") in
      (of_Z 7 * offerPricePerUnit ex_discounted <=? total r) = true
      /\ (total r <=? of_Z 7 * regularPrice ex_discounted) = true
      /\ (offerPricePerUnit ex_discounted <=? effectivePricePerUnit r) = true
      /\ (effectivePricePerUnit r <=? regularPrice ex_discounted) = true).
Proof.
  assert (Hline : safe_whole_line ex_discounted (Some "bulk") 7 3 100 80)
    by (apply ex_discounted_line; lia).
  assert (Hup : (80 <= 100)%Z) by lia.
  assert (Hpos : (0 < 7)%Z) by lia.
  split; [auto|].
  destruct (total_between_offer_and_regular ex_discounted (Some "bulk")
              7 3 100 80 Hline Hup)
    as (Hlow & Hhigh & Heffective).
  destruct (Heffective Hpos) as (Hmin & Hmax). auto.
Defined.

Lemma discount_is_subtotal_minus_total_at_example :
  is_finite (subtotal (calculateOfferPricing ex_product (of_Z 7) (Some "regular")))
  = true
  /\ (let r := calculateOfferPricing ex_product (of_Z 7) (Some "regular") in
      subtotal r = of_Z 700
      /\ total r = of_Z 700
      /\ discount r = subtotal r - total r).
Proof.
  assert (Hfinite : is_finite (subtotal (calculateOfferPricing ex_product (of_Z 7)
                                           (Some "regular"))) = true)
    by (vm_compute; reflexivity).
  split; [exact Hfinite|].
  split; [number_eq|]. split; [number_eq|].
  exact (discount_is_subtotal_minus_total ex_product (Some "regular") (of_Z 7)
           Hfinite).
Defined.

Lemma cart_without_offers_has_no_discount_at_example :
  Forall (fun item =>
            item_specialOffer item = None
            \/ item_offerType item = Some "regular"
            \/ item_offerType item = None) [ex_item_plain]
  /\ (let c := calculateCartTotal [ex_item_plain] in
      cart_discount c = Num.zero
      /\ cart_total c = cart_subtotal c
      /\ formatDiscount (cart_discount c) = "").
Proof.
  assert (Hitems : Forall (fun item =>
                             item_specialOffer item = None
                             \/ item_offerType item = Some "regular"
                             \/ item_offerType item = None) [ex_item_plain]).
  { constructor; [left; reflexivity | constructor]. }
  split; [exact Hitems|].
  exact (cart_without_offers_has_no_discount [ex_item_plain] Hitems).
Defined.

Lemma whole_discount_label_at_example :
  (0 < 120 <= MAX_SAFE_INTEGER)%Z
  /\ formatDiscount (of_Z 120) = "₹" ++ Print.numeral 120 ++ " सूट".
Proof.
  assert (Hz : (0 < 120 <= MAX_SAFE_INTEGER)%Z) by (unfold MAX_SAFE_INTEGER; lia).
  split; [exact Hz|].
  exact (proj2 (whole_discount_label 120) Hz).
Defined.

Lemma small_discount_is_labelled_zero_at_example :
  ((0 < Q2Qc (1 # 4))%Qc /\ (Q2Qc (1 # 4) < half)%Qc)
  /\ formatDiscount (Fin (Q2Qc (1 # 4))) = "₹0 सूट".
Proof.
  assert (Hpos : (0 < Q2Qc (1 # 4))%Qc) by reflexivity.
  assert (Hhalf : (Q2Qc (1 # 4) < half)%Qc) by reflexivity.
  split; [auto|].
  exact (small_discount_is_labelled_zero (Q2Qc (1 # 4)) Hpos Hhalf).
Defined.

Lemma savings_label_at_example :
  (safe_whole_line ex_discounted (Some "bulk") 7 3 100 80
   /\ (80 < 100)%Z /\ (3 <= 7)%Z)
  /\ formatDiscount
       (discount (calculateOfferPricing ex_discounted (of_Z 7) (Some "bulk")))
     = "₹" ++ Print.numeral (7 / 3 * 3 * (100 - 80)) ++ " सूट".
Proof.
  assert (Hline : safe_whole_line ex_discounted (Some "bulk") 7 3 100 80)
    by (apply ex_discounted_line; lia).
  assert (Hup : (80 < 100)%Z) by lia.
  assert (Hbq : (3 <= 7)%Z) by lia.
  split; [auto|].
  exact (savings_label ex_discounted (Some "bulk") 7 3 100 80 Hline Hup Hbq).
Defined.


Lemma truncated_text_is_accepted_at_example :
  ((Num.zero <=? of_Z 3) = true
   /\ (Editor.length (Editor.trim [97; 98; 99; 100]%N) <=? of_Z 3) = false)
  /\ exists truncated : Editor.jsstring,
       Editor.handleChange (of_Z 3) true tt [97; 98; 99; 100]%N
       = [Editor.SetText truncated]
       /\ truncated = firstn (List.length truncated) [97; 98; 99; 100]%N
       /\ (Editor.length truncated <=? of_Z 3) = true
       /\ forall (quill : bool) (content' : unit) (tail : Editor.jsstring),
            forallb Editor.isWhiteSpace tail = true ->
            Editor.handleChange (of_Z 3) quill content' (truncated ++ tail)%list
            = [Editor.OnChange content'].
Proof.
  assert (Hlimit : (Num.zero <=? of_Z 3) = true) by (vm_compute; reflexivity).
  assert (Hover : (Editor.length (Editor.trim [97; 98; 99; 100]%N) <=? of_Z 3)
                  = false) by (vm_compute; reflexivity).
  split; [auto|].
  exact (truncated_text_is_accepted (of_Z 3) tt [97; 98; 99; 100]%N Hlimit Hover).
Defined.

Lemma missing_price_counts_as_zero_at_example :
  price ex_unpriced = VUndefined
  /\ regularPrice ex_unpriced = Num.zero
  /\ total (calculateOfferPricing ex_unpriced (Fin (Zc 7)) (Some "bulk"))
     = Num.zero.
Proof.
  assert (Hprice : price ex_unpriced = VUndefined) by reflexivity.
  split; [exact Hprice|].
  destruct (missing_price_counts_as_zero ex_unpriced (Some "bulk") (Zc 7)
              (or_introl Hprice)) as (Hzero & Hflat).
  split; [exact Hzero|].
  destruct (Hflat eq_refl) as (_ & Htotal & _). exact Htotal.
Defined.

Lemma incomplete_offer_is_ignored_at_example :
  (specialOffer ex_sizeless = Some ex_sizeless_offer
   /\ so_quantity ex_sizeless_offer = None)
  /\ calculateOfferPricing ex_sizeless (of_Z 7) (Some "bulk")
     = flatPricing (regularPrice ex_sizeless) (of_Z 7).
Proof.
  assert (Hoffer : specialOffer ex_sizeless = Some ex_sizeless_offer)
    by reflexivity.
  assert (Hsize : so_quantity ex_sizeless_offer = None) by reflexivity.
  split; [auto|].
  exact (incomplete_offer_is_ignored ex_sizeless ex_sizeless_offer (of_Z 7)
           (Some "bulk") Hoffer (or_introl (or_introl Hsize))).
Defined.

End FurtherInstances.
